(** * The AIDL fingerprint HAL service shim (Fingerprint.cpp / Fingerprint.h)

    A shallow embedding of the class [Fingerprint]: the module loader
    [openHal], the constructor, the static callback [notify] and the two
    remote operations [getSensorProps] and [createSession].

    The vendor code behind the C interface (libhardware's module lookup, the
    device's [open] and [set_notify], the UDFPS handler factory, the system
    properties) is an environment [Env] of answers; every call made to it is
    recorded in the world's [trace].  The objects the C++ code shares through
    pointers (the [Fingerprint] instances reached through [this] and through
    the static [sInstance], the [Session] objects reached through
    [shared_ptr]) live in a store indexed by address.

    Diagnostic output (ALOGE, ALOGI, ALOGD, ALOGV) is not part of the state. *)

From Stdlib Require Import ZArith.
From stdpp Require Import base numbers list strings gmap.

Local Open Scope string_scope.
Local Open Scope list_scope.

(** ** AIDL data types *)

Inductive FingerprintSensorType :=
| UNKNOWN
| REAR
| UNDER_DISPLAY_ULTRASONIC
| UNDER_DISPLAY_OPTICAL
| POWER_BUTTON
| HOME_BUTTON.

Inductive SensorStrength := CONVENIENCE | WEAK | STRONG.

Record ComponentInfo := {
  componentId : string;
  hardwareVersion : string;
  firmwareVersion : string;
  serialNumber : string;
  softwareVersion : string }.

Record CommonProps := {
  sensorId : Z;
  sensorStrength : SensorStrength;
  maxEnrollmentsPerUser : Z;
  componentInfo : list ComponentInfo }.

(** The three members of the parcelable that the service assigns; a
    default-constructed value has all of them zero.  Its other members are
    never touched by the service and keep their defaults in every value it
    builds. *)
Record SensorLocation := {
  sensorLocationX : Z;
  sensorLocationY : Z;
  sensorRadius : Z }.

(** Never built by the service, which always passes [std::nullopt]. *)
Record TouchDetectionParameters := { touchParams : Z }.

(** The eight members, in the order of the aggregate initialiser. *)
Record SensorProps := {
  commonProps : CommonProps;
  sensorType : FingerprintSensorType;
  sensorLocations : list SensorLocation;
  supportsNavigationGestures : bool;
  supportsDetectInteraction : bool;
  halHandlesDisplayTouches : bool;
  halControlsIllumination : bool;
  touchDetectionParameters : option TouchDetectionParameters }.

Inductive ScopedAStatus :=
| ok
| fromExceptionCode (code : Z).

(** ** The C interface of the vendor module *)

(** A value of the callback pointer type: null, or the address of the static
    member function [Fingerprint::notify]. *)
Inductive fingerprint_notify_t :=
| null_notify
| Fingerprint_notify.

Record fingerprint_msg_t := {
  msg_type : Z;
  msg_data : Z }.

(** An opened device: its address, the [version] of its [hw_device_t] header
    (a [uint32_t]), the error code its [common.close] answers and the error
    code its [set_notify] answers. *)
Record fingerprint_device_t := {
  dev_addr : Z;
  version : Z;
  close : Z;
  set_notify : fingerprint_notify_t -> Z }.

(** [open] may be a null function pointer; called with the [id] argument it
    answers an error code and the device it stored through the out pointer. *)
Record hw_module_methods_t := {
  open : option (option string -> Z * option fingerprint_device_t) }.

Record hw_module_t := {
  module_addr : Z;
  methods : hw_module_methods_t }.

Record UdfpsHandler := { handler_addr : Z }.

(** [create] is represented by the handler it returns (null when it fails). *)
Record UdfpsHandlerFactory := {
  factory_addr : Z;
  create : option UdfpsHandler }.

Record ISessionCallback := {
  cb_addr : Z;
  asBinder : Z }.

(** ** The environment: what the code outside this class answers *)

Record Env := {
  (** error code and the module stored through [&hw_mdl] *)
  hw_get_module_by_class : string -> option string -> Z * option hw_module_t;
  getUdfpsHandlerFactory : option UdfpsHandlerFactory;
  (** the system properties that are set, with their integer value *)
  properties : gmap string Z }.

(** Calls made to the vendor code, with their arguments. *)
Inductive event :=
| ev_hw_get_module_by_class (id_name : string) (class_name : option string)
| ev_open (module : Z)
| ev_set_notify (dev : Z) (cb : fingerprint_notify_t) (err : Z)
| ev_getUdfpsHandlerFactory
| ev_create (factory : Z)
| ev_init (handler : Z) (dev : option Z)
| ev_destroy (factory : Z) (handler : Z)
| ev_close (dev : Z) (err : Z).

(** ** Objects and the world *)

(** Modelled from the spec: the class [Session] (Session.h, Session.cpp) is
    not among the source files.  A session is the "per-user session" object
    that [createSession] constructs from the device, the UDFPS handler, the
    user id, the callback and a reference to the owner's lockout tracker; it
    can be closed, is linked to a binder's death, and receives the messages
    that [Fingerprint::notify] forwards. *)
Record Session := {
  sess_device : option fingerprint_device_t;
  sess_udfpsHandler : option UdfpsHandler;
  sess_userId : Z;
  sess_cb : ISessionCallback;
  (** the lockout tracker is a member of the [Fingerprint] at this address *)
  sess_lockoutTracker : nat;
  sess_closed : bool;
  sess_linkedToDeath : list Z;
  sess_notified : list fingerprint_msg_t }.

(** The data members of [Fingerprint].  [mLockoutTracker] is a sub-object and
    is identified by the address of the object that contains it. *)
Record Fingerprint := {
  mSession : option nat;
  mSensorType : FingerprintSensorType;
  mMaxEnrollmentsPerUser : Z;
  mSupportsGestures : bool;
  mDevice : option fingerprint_device_t;
  mUdfpsHandlerFactory : option UdfpsHandlerFactory;
  mUdfpsHandler : option UdfpsHandler }.

Record World := {
  (** [static Fingerprint* sInstance] *)
  sInstance : option nat;
  (** the [Fingerprint] objects, by address *)
  objects : list Fingerprint;
  (** the [Session] objects, by address *)
  sessions : list Session;
  (** the calls made to the vendor code, most recent first *)
  trace : list event }.

Definition init_world : World :=
  {| sInstance := None; objects := []; sessions := []; trace := [] |}.

(** ** Outcomes and the state monad *)

Inductive outcome (A : Type) :=
| Done (a : A) (w : World)
  (** [CHECK] failed: the process aborts in the world [w] *)
| Abort (w : World)
  (** a null or dangling pointer was dereferenced *)
| Fault.
Arguments Done {A} a w.
Arguments Abort {A} w.
Arguments Fault {A}.

Definition M (A : Type) : Type := World -> outcome A.

Definition ret {A} (a : A) : M A := fun w => Done a w.

Definition bind {A B} (m : M A) (k : A -> M B) : M B :=
  fun w =>
    match m w with
    | Done a w' => k a w'
    | Abort w' => Abort w'
    | Fault => Fault
    end.

Notation "x <- m ;; k" := (bind m (fun x => k))
  (at level 100, m at next level, right associativity).
Notation "m ;;; k" := (bind m (fun _ => k))
  (at level 100, right associativity).

Definition fault {A} : M A := fun _ => Fault.
Definition abort {A} : M A := fun w => Abort w.

Definition emit (e : event) : M unit :=
  fun w => Done tt {| sInstance := sInstance w; objects := objects w;
                      sessions := sessions w; trace := e :: trace w |}.

(** The world [w] after the calls [tr] (most recent first). *)
Definition after_calls (tr : list event) (w : World) : World :=
  {| sInstance := sInstance w; objects := objects w;
     sessions := sessions w; trace := tr ++ trace w |}.

Definition set_sInstance (p : option nat) : M unit :=
  fun w => Done tt {| sInstance := p; objects := objects w;
                      sessions := sessions w; trace := trace w |}.

Definition get_sInstance : M (option nat) := fun w => Done (sInstance w) w.

(** [*this] *)
Definition deref (this : nat) : M Fingerprint :=
  fun w => match objects w !! this with
           | Some fp => Done fp w
           | None => Fault
           end.

Definition store (this : nat) (fp : Fingerprint) : M unit :=
  fun w => match objects w !! this with
           | Some _ => Done tt {| sInstance := sInstance w;
                                  objects := <[this := fp]> (objects w);
                                  sessions := sessions w; trace := trace w |}
           | None => Fault
           end.

Definition alloc (fp : Fingerprint) : M nat :=
  fun w => Done (length (objects w))
                {| sInstance := sInstance w; objects := objects w ++ [fp];
                   sessions := sessions w; trace := trace w |}.

Definition deref_session (s : nat) : M Session :=
  fun w => match sessions w !! s with
           | Some ss => Done ss w
           | None => Fault
           end.

Definition store_session (s : nat) (ss : Session) : M unit :=
  fun w => match sessions w !! s with
           | Some _ => Done tt {| sInstance := sInstance w; objects := objects w;
                                  sessions := <[s := ss]> (sessions w);
                                  trace := trace w |}
           | None => Fault
           end.

Definition alloc_session (ss : Session) : M nat :=
  fun w => Done (length (sessions w))
                {| sInstance := sInstance w; objects := objects w;
                   sessions := sessions w ++ [ss]; trace := trace w |}.

(** [this->member = ...]: the object at [this] is read, changed and written
    back. *)
Definition modify (this : nat) (f : Fingerprint -> Fingerprint) : M unit :=
  fp <- deref this ;;
  store this (f fp).

(** Assignments to single data members of [*this]. *)
Definition set_mSession (this : nat) (s : option nat) : M unit :=
  modify this (fun fp =>
  {| mSession := s;
     mSensorType := mSensorType fp;
     mMaxEnrollmentsPerUser := mMaxEnrollmentsPerUser fp;
     mSupportsGestures := mSupportsGestures fp;
     mDevice := mDevice fp;
     mUdfpsHandlerFactory := mUdfpsHandlerFactory fp;
     mUdfpsHandler := mUdfpsHandler fp |}).

Definition set_mSensorType (this : nat) (t : FingerprintSensorType) : M unit :=
  modify this (fun fp =>
  {| mSession := mSession fp;
     mSensorType := t;
     mMaxEnrollmentsPerUser := mMaxEnrollmentsPerUser fp;
     mSupportsGestures := mSupportsGestures fp;
     mDevice := mDevice fp;
     mUdfpsHandlerFactory := mUdfpsHandlerFactory fp;
     mUdfpsHandler := mUdfpsHandler fp |}).

Definition set_mDevice (this : nat) (d : option fingerprint_device_t) : M unit :=
  modify this (fun fp =>
  {| mSession := mSession fp;
     mSensorType := mSensorType fp;
     mMaxEnrollmentsPerUser := mMaxEnrollmentsPerUser fp;
     mSupportsGestures := mSupportsGestures fp;
     mDevice := d;
     mUdfpsHandlerFactory := mUdfpsHandlerFactory fp;
     mUdfpsHandler := mUdfpsHandler fp |}).

Definition set_mUdfpsHandlerFactory (this : nat) (f : option UdfpsHandlerFactory) : M unit :=
  modify this (fun fp =>
  {| mSession := mSession fp;
     mSensorType := mSensorType fp;
     mMaxEnrollmentsPerUser := mMaxEnrollmentsPerUser fp;
     mSupportsGestures := mSupportsGestures fp;
     mDevice := mDevice fp;
     mUdfpsHandlerFactory := f;
     mUdfpsHandler := mUdfpsHandler fp |}).

Definition set_mUdfpsHandler (this : nat) (h : option UdfpsHandler) : M unit :=
  modify this (fun fp =>
  {| mSession := mSession fp;
     mSensorType := mSensorType fp;
     mMaxEnrollmentsPerUser := mMaxEnrollmentsPerUser fp;
     mSupportsGestures := mSupportsGestures fp;
     mDevice := mDevice fp;
     mUdfpsHandlerFactory := mUdfpsHandlerFactory fp;
     mUdfpsHandler := h |}).

(** ** Constants of Fingerprint.cpp *)

Record fingerprint_hal_t := {
  id_name : string;
  class_name : option string;
  sensor_type : FingerprintSensorType }.

Definition kModules : list fingerprint_hal_t :=
  [ {| id_name := "fingerprint.goodix_fod"; class_name := None;
       sensor_type := UNDER_DISPLAY_OPTICAL |};
    {| id_name := "fingerprint"; class_name := None;
       sensor_type := UNDER_DISPLAY_OPTICAL |} ].

Definition SENSOR_ID : Z := 0.
Definition SENSOR_STRENGTH : SensorStrength := STRONG.
Definition MAX_ENROLLMENTS_PER_USER : Z := 7.
Definition SUPPORTS_NAVIGATION_GESTURES : bool := false.
Definition HW_COMPONENT_ID : string := "fingerprintSensor".
Definition HW_VERSION : string := "vendor/model/revision".
Definition FW_VERSION : string := "1.01".
Definition SERIAL_NUMBER : string := "00000001".
Definition SW_COMPONENT_ID : string := "matchingAlgorithm".
Definition SW_VERSION : string := "vendor/version/revision".

(** The macro of hardware/hardware.h:
    [((((maj) & 0xff) << 8) | ((min) & 0xff))]. *)
Definition HARDWARE_MODULE_API_VERSION (maj min : Z) : Z :=
  Z.lor (Z.shiftl (Z.land maj 255) 8) (Z.land min 255).

(** [static const uint16_t kVersion] *)
Definition kVersion : Z := (HARDWARE_MODULE_API_VERSION 2 1) mod 2 ^ 16.

(** ** Fingerprint::openHal *)

Definition openHal (env : Env) (id_name : string) (class_name : option string)
  : M (option fingerprint_device_t) :=
  emit (ev_hw_get_module_by_class id_name class_name) ;;;
  let '(err, hw_mdl) := hw_get_module_by_class env id_name class_name in
  if negb (0 =? err)%Z then ret None
  else
    match hw_mdl with
    | None => ret None
    | Some module =>
        match open (methods module) with
        | None => ret None
        | Some open_fn =>
            emit (ev_open (module_addr module)) ;;;
            let '(err, device) := open_fn None in
            if negb (0 =? err)%Z then ret None
            else
              match device with
              | None => fault
              | Some device =>
                  if negb (kVersion =? version device)%Z then ret None
                  else
                    let fp_device := device in
                    let err := set_notify fp_device Fingerprint_notify in
                    emit (ev_set_notify (dev_addr fp_device) Fingerprint_notify err) ;;;
                    if negb (0 =? err)%Z then ret None
                    else ret (Some fp_device)
              end
        end
    end.

(** ** Fingerprint::Fingerprint *)

(** The loop over [kModules]: [continue] on a null device, [break] after the
    first one that opened. *)
Fixpoint load_modules (env : Env) (this : nat) (mods : list fingerprint_hal_t)
  : M unit :=
  match mods with
  | [] => ret tt
  | m :: rest =>
      d <- openHal env (id_name m) (class_name m) ;;
      set_mDevice this d ;;;
      match d with
      | None => load_modules env this rest
      | Some _ => set_mSensorType this (sensor_type m)
      end
  end.

Definition is_under_display (t : FingerprintSensorType) : bool :=
  match t with
  | UNDER_DISPLAY_OPTICAL | UNDER_DISPLAY_ULTRASONIC => true
  | _ => false
  end.

(** The object as the member initializer list leaves it; [mSession] is
    default-constructed. *)
Definition member_initializers : Fingerprint :=
  {| mSession := None;
     mSensorType := UNKNOWN;
     mMaxEnrollmentsPerUser := MAX_ENROLLMENTS_PER_USER;
     mSupportsGestures := false;
     mDevice := None;
     mUdfpsHandlerFactory := None;
     mUdfpsHandler := None |}.

(** The last part of the constructor: the UDFPS handler of an under-display
    sensor. *)
Definition ctor_udfps (env : Env) (this : nat) : M unit :=
  fp <- deref this ;;
  if is_under_display (mSensorType fp) then
    emit ev_getUdfpsHandlerFactory ;;;
    set_mUdfpsHandlerFactory this (getUdfpsHandlerFactory env) ;;;
    match getUdfpsHandlerFactory env with
    | None => ret tt
    | Some factory =>
        emit (ev_create (factory_addr factory)) ;;;
        set_mUdfpsHandler this (create factory) ;;;
        match create factory with
        | None => ret tt
        | Some handler =>
            fp <- deref this ;;
            emit (ev_init (handler_addr handler) (dev_addr <$> mDevice fp))
        end
    end
  else ret tt.

(** The constructor, run on a freshly allocated object; it answers the
    address of that object. *)
Definition Fingerprint_ctor (env : Env) : M nat :=
  this <- alloc member_initializers ;;
  set_sInstance (Some this) ;;;
  load_modules env this kModules ;;;
  ctor_udfps env this ;;;
  ret this.

(** ** Fingerprint::~Fingerprint *)

(** The body of the destructor, run on the object at [this]. *)
Definition Fingerprint_dtor (this : nat) : M unit :=
  fp <- deref this ;;
  match mUdfpsHandler fp with
  | Some handler =>
      match mUdfpsHandlerFactory fp with
      | None => fault
      | Some factory =>
          emit (ev_destroy (factory_addr factory) (handler_addr handler))
      end
  | None => ret tt
  end ;;;
  fp <- deref this ;;
  match mDevice fp with
  | None => ret tt
  | Some device =>
      let err := close device in
      emit (ev_close (dev_addr device) err) ;;;
      if negb (0 =? err)%Z then ret tt
      else set_mDevice this None
  end.

(** ** The methods of Session that the service calls *)

(** Modelled from the spec: [Session::isClosed] (Session.cpp is not among the
    source files) tells whether the session is closed. *)
Definition Session_isClosed (s : nat) : M bool :=
  ss <- deref_session s ;;
  ret (sess_closed ss).

(** Modelled from the spec: [Session::notify] (Session.cpp is not among the
    source files) receives the forwarded message. *)
Definition Session_notify (s : nat) (msg : fingerprint_msg_t) : M unit :=
  ss <- deref_session s ;;
  store_session s
    {| sess_device := sess_device ss; sess_udfpsHandler := sess_udfpsHandler ss;
       sess_userId := sess_userId ss; sess_cb := sess_cb ss;
       sess_lockoutTracker := sess_lockoutTracker ss;
       sess_closed := sess_closed ss;
       sess_linkedToDeath := sess_linkedToDeath ss;
       sess_notified := msg :: sess_notified ss |}.

(** Modelled from the spec: [Session::linkToDeath] (Session.cpp is not among
    the source files) links the session to the death of a binder. *)
Definition Session_linkToDeath (s : nat) (binder : Z) : M unit :=
  ss <- deref_session s ;;
  store_session s
    {| sess_device := sess_device ss; sess_udfpsHandler := sess_udfpsHandler ss;
       sess_userId := sess_userId ss; sess_cb := sess_cb ss;
       sess_lockoutTracker := sess_lockoutTracker ss;
       sess_closed := sess_closed ss;
       sess_linkedToDeath := binder :: sess_linkedToDeath ss;
       sess_notified := sess_notified ss |}.

(** Modelled from the spec: [SharedRefBase::make<Session>] (Session.cpp is not
    among the source files) constructs a session, not closed, bound to its
    five arguments. *)
Definition Session_make (device : option fingerprint_device_t)
    (udfpsHandler : option UdfpsHandler) (userId : Z) (cb : ISessionCallback)
    (lockoutTracker : nat) : M nat :=
  alloc_session
    {| sess_device := device; sess_udfpsHandler := udfpsHandler;
       sess_userId := userId; sess_cb := cb;
       sess_lockoutTracker := lockoutTracker;
       sess_closed := false; sess_linkedToDeath := []; sess_notified := [] |}.

(** Modelled from the spec: [Session::close] (Session.cpp is not among the
    source files), the remote operation by which the framework closes a
    session; a closed session stays closed. *)
Definition Session_close (s : nat) : M unit :=
  ss <- deref_session s ;;
  store_session s
    {| sess_device := sess_device ss; sess_udfpsHandler := sess_udfpsHandler ss;
       sess_userId := sess_userId ss; sess_cb := sess_cb ss;
       sess_lockoutTracker := sess_lockoutTracker ss;
       sess_closed := true;
       sess_linkedToDeath := sess_linkedToDeath ss;
       sess_notified := sess_notified ss |}.

(** ** Fingerprint::notify *)

Definition notify (msg : fingerprint_msg_t) : M unit :=
  thisPtr <- get_sInstance ;;
  match thisPtr with
  | None => ret tt
  | Some thisPtr =>
      fp <- deref thisPtr ;;
      match mSession fp with
      | None => ret tt
      | Some s =>
          closed <- Session_isClosed s ;;
          if closed then ret tt
          else
            fp <- deref thisPtr ;;
            match mSession fp with
            | None => fault
            | Some s => Session_notify s msg
            end
      end
  end.

(** ** Fingerprint::getSensorProps *)

(** libcutils' [property_get_int32]: the value of the property when it is set
    and fits an [int32_t], the default otherwise. *)
Definition property_get_int32 (env : Env) (key : string) (default_value : Z) : Z :=
  match properties env !! key with
  | Some v =>
      if ((- 2 ^ 31 <=? v) && (v <=? 2 ^ 31 - 1))%Z then v else default_value
  | None => default_value
  end.

(** A default-constructed [SensorLocation]. *)
Definition default_SensorLocation : SensorLocation :=
  {| sensorLocationX := 0; sensorLocationY := 0; sensorRadius := 0 |}.

(** The status and the vector written through [out]. *)
Definition getSensorProps (env : Env) (this : nat)
  : M (ScopedAStatus * list SensorProps) :=
  fp <- deref this ;;
  let componentInfo :=
    [ {| componentId := HW_COMPONENT_ID; hardwareVersion := HW_VERSION;
         firmwareVersion := FW_VERSION; serialNumber := SERIAL_NUMBER;
         softwareVersion := "" |};
      {| componentId := SW_COMPONENT_ID; hardwareVersion := "";
         firmwareVersion := ""; serialNumber := "";
         softwareVersion := SW_VERSION |} ] in
  let commonProps :=
    {| sensorId := SENSOR_ID; sensorStrength := SENSOR_STRENGTH;
       maxEnrollmentsPerUser := mMaxEnrollmentsPerUser fp;
       componentInfo := componentInfo |} in
  let x := property_get_int32 env
             "ro.vendor.feature.fingerprint_sensorui_position_center_x" (-1) in
  let y := property_get_int32 env
             "ro.vendor.feature.fingerprint_sensorui_position_center_y" (-1) in
  let r := property_get_int32 env
             "ro.vendor.feature.fingerprint_sensorui_position_center_r" (-1) in
  let sensorLocation :=
    if ((0 <=? x) && (0 <=? y) && (0 <=? r))%Z
    then {| sensorLocationX := x; sensorLocationY := y; sensorRadius := r |}
    else default_SensorLocation in
  ret (ok,
       [ {| commonProps := commonProps;
            sensorType := mSensorType fp;
            sensorLocations := [sensorLocation];
            supportsNavigationGestures := mSupportsGestures fp;
            supportsDetectInteraction := false;
            halHandlesDisplayTouches := false;
            halControlsIllumination := false;
            touchDetectionParameters := None |} ]).

(** ** Fingerprint::createSession *)

(** The status and the pointer written through [out].  The first parameter,
    the sensor id, is unnamed in the source and unused. *)
Definition createSession (this : nat) (sensorId userId : Z)
    (cb : ISessionCallback) : M (ScopedAStatus * option nat) :=
  fp <- deref this ;;
  check <- match mSession fp with
           | None => ret true
           | Some s => Session_isClosed s
           end ;;
  if negb check then abort
  else
    s <- Session_make (mDevice fp) (mUdfpsHandler fp) userId cb this ;;
    set_mSession this (Some s) ;;;
    fp <- deref this ;;
    let out := mSession fp in
    match mSession fp with
    | None => fault
    | Some s =>
        Session_linkToDeath s (asBinder cb) ;;;
        ret (ok, out)
    end.

(** ** The runs of the service *)

(** One step of the service: a [Fingerprint] is constructed, one of the two
    remote operations or the callback runs to completion, or the framework
    closes a session.  The runs follow the objects while they live: the
    destructor is not a step. *)
Inductive step (env : Env) : World -> World -> Prop :=
| step_ctor w this w' :
    Fingerprint_ctor env w = Done this w' -> step env w w'
| step_getSensorProps w this r w' :
    getSensorProps env this w = Done r w' -> step env w w'
| step_createSession w this sensorId userId cb r w' :
    createSession this sensorId userId cb w = Done r w' -> step env w w'
| step_notify w msg w' :
    notify msg w = Done tt w' -> step env w w'
| step_close w s w' :
    Session_close s w = Done tt w' -> step env w w'.

Definition reachable (env : Env) (w : World) : Prop :=
  rtc (step env) init_world w.

(** Running an operation and keeping the world it leaves. *)
Definition exec {A} (m : M A) (w : World) : World :=
  match m w with
  | Done _ w' => w'
  | Abort w' => w'
  | Fault => w
  end.

(** ** Sample environments *)

Definition sample_device (addr ver err : Z) : fingerprint_device_t :=
  {| dev_addr := addr; version := ver; close := 0;
     set_notify := fun _ => err |}.

Definition sample_module (addr : Z) (d : fingerprint_device_t) : hw_module_t :=
  {| module_addr := addr;
     methods := {| open := Some (fun _ => (0%Z, Some d)) |} |}.

Definition sample_factory : UdfpsHandlerFactory :=
  {| factory_addr := 8192; create := Some {| handler_addr := 8200 |} |}.

Definition sample_properties : gmap string Z :=
  <["ro.vendor.feature.fingerprint_sensorui_position_center_x" := 540%Z]>
  (<["ro.vendor.feature.fingerprint_sensorui_position_center_y" := 2163%Z]>
  (<["ro.vendor.feature.fingerprint_sensorui_position_center_r" := 118%Z]> ∅)).

(** A device of version 2.1 behind "fingerprint.goodix_fod". *)
Definition dev_goodix : fingerprint_device_t := sample_device 4096 513 0.

Definition env_goodix : Env :=
  {| hw_get_module_by_class := fun id _ =>
       if String.eqb id "fingerprint.goodix_fod"
       then (0%Z, Some (sample_module 64 dev_goodix))
       else ((-2)%Z, None);
     getUdfpsHandlerFactory := Some sample_factory;
     properties := sample_properties |}.

(** No "fingerprint.goodix_fod" module; a device of version 2.1 behind
    "fingerprint"; no sensor-location properties. *)
Definition dev_generic : fingerprint_device_t := sample_device 4352 513 0.

Definition env_generic : Env :=
  {| hw_get_module_by_class := fun id _ =>
       if String.eqb id "fingerprint"
       then (0%Z, Some (sample_module 128 dev_generic))
       else ((-2)%Z, None);
     getUdfpsHandlerFactory := None;
     properties := ∅ |}.

(** Both modules open a device, of version 2.0. *)
Definition dev_old : fingerprint_device_t := sample_device 4608 512 0.

Definition env_old : Env :=
  {| hw_get_module_by_class := fun _ _ => (0%Z, Some (sample_module 192 dev_old));
     getUdfpsHandlerFactory := Some sample_factory;
     properties := ∅ |}.

(** A device of version 2.1 whose [set_notify] answers -22. *)
Definition dev_refusing : fingerprint_device_t := sample_device 4864 513 (-22).

Definition env_refusing : Env :=
  {| hw_get_module_by_class := fun _ _ =>
       (0%Z, Some (sample_module 256 dev_refusing));
     getUdfpsHandlerFactory := Some sample_factory;
     properties := ∅ |}.

Definition sample_cb (n : Z) : ISessionCallback :=
  {| cb_addr := n; asBinder := (n + 1)%Z |}.

Definition sample_msg : fingerprint_msg_t := {| msg_type := 1; msg_data := 0 |}.

(** The world after the service has been constructed in [env]. *)
Definition world_constructed (env : Env) : World :=
  exec (Fingerprint_ctor env) init_world.

(** The world after user 10 has opened a session on that service. *)
Definition world_session_open (env : Env) : World :=
  exec (createSession 0 0 10 (sample_cb 100)) (world_constructed env).

(** The world after the framework has closed that session. *)
Definition world_session_closed (env : Env) : World :=
  exec (Session_close 0) (world_session_open env).

(** ** Notions used in the statements *)

(** The world [w] with the object at [this] replaced by [fp]. *)
Definition with_object (this : nat) (fp : Fingerprint) (w : World) : World :=
  {| sInstance := sInstance w; objects := <[this := fp]> (objects w);
     sessions := sessions w; trace := trace w |}.

(** The world [w] with the session at [s] replaced by [ss]. *)
Definition with_session (s : nat) (ss : Session) (w : World) : World :=
  {| sInstance := sInstance w; objects := objects w;
     sessions := <[s := ss]> (sessions w); trace := trace w |}.

(** What [openHal] answers in the environment [env], and the calls it makes
    (most recent first): its run from the initial world. *)
Definition openHal_answer (env : Env) (id_name : string)
    (class_name : option string)
  : option (option fingerprint_device_t * list event) :=
  match openHal env id_name class_name init_world with
  | Done r w => Some (r, trace w)
  | _ => None
  end.

(** [openHal] on the entry [m] of [kModules] returns [r]. *)
Definition openHal_returns (env : Env) (m : fingerprint_hal_t)
    (r : option fingerprint_device_t) : Prop :=
  forall w, exists w', openHal env (id_name m) (class_name m) w = Done r w'.

Definition is_module_lookup (e : event) : bool :=
  match e with
  | ev_hw_get_module_by_class _ _ => true
  | _ => false
  end.

Definition is_set_notify (e : event) : bool :=
  match e with
  | ev_set_notify _ _ _ => true
  | _ => false
  end.

(** The module lookup that [openHal] makes for the entry [m]. *)
Definition lookup_of (m : fingerprint_hal_t) : event :=
  ev_hw_get_module_by_class (id_name m) (class_name m).

(** The object [fp] after the loop of the constructor has left the device
    [d] and the sensor type [t] in it. *)
Definition loaded (d : option fingerprint_device_t) (t : FingerprintSensorType)
    (fp : Fingerprint) : Fingerprint :=
  {| mSession := mSession fp; mSensorType := t;
     mMaxEnrollmentsPerUser := mMaxEnrollmentsPerUser fp;
     mSupportsGestures := mSupportsGestures fp; mDevice := d;
     mUdfpsHandlerFactory := mUdfpsHandlerFactory fp;
     mUdfpsHandler := mUdfpsHandler fp |}.

(** The object [fp] with the UDFPS handler factory [f] and handler [h]. *)
Definition with_udfps (f : option UdfpsHandlerFactory) (h : option UdfpsHandler)
    (fp : Fingerprint) : Fingerprint :=
  {| mSession := mSession fp; mSensorType := mSensorType fp;
     mMaxEnrollmentsPerUser := mMaxEnrollmentsPerUser fp;
     mSupportsGestures := mSupportsGestures fp; mDevice := mDevice fp;
     mUdfpsHandlerFactory := f; mUdfpsHandler := h |}.

(** The object [fp] with the session pointer [s]. *)
Definition with_mSession (s : option nat) (fp : Fingerprint) : Fingerprint :=
  {| mSession := s; mSensorType := mSensorType fp;
     mMaxEnrollmentsPerUser := mMaxEnrollmentsPerUser fp;
     mSupportsGestures := mSupportsGestures fp; mDevice := mDevice fp;
     mUdfpsHandlerFactory := mUdfpsHandlerFactory fp;
     mUdfpsHandler := mUdfpsHandler fp |}.

(** The session that [createSession] leaves behind when it is called on the
    object [fp] at [this]: bound to the device, the UDFPS handler and the
    lockout tracker of that object, to the user and to the callback, linked
    to the death of the callback's binder, not closed. *)
Definition created_session (this : nat) (fp : Fingerprint) (userId : Z)
    (cb : ISessionCallback) : Session :=
  {| sess_device := mDevice fp; sess_udfpsHandler := mUdfpsHandler fp;
     sess_userId := userId; sess_cb := cb; sess_lockoutTracker := this;
     sess_closed := false; sess_linkedToDeath := [asBinder cb];
     sess_notified := [] |}.

(** The session [ss] after it has received [msg]. *)
Definition notified (msg : fingerprint_msg_t) (ss : Session) : Session :=
  {| sess_device := sess_device ss; sess_udfpsHandler := sess_udfpsHandler ss;
     sess_userId := sess_userId ss; sess_cb := sess_cb ss;
     sess_lockoutTracker := sess_lockoutTracker ss;
     sess_closed := sess_closed ss;
     sess_linkedToDeath := sess_linkedToDeath ss;
     sess_notified := msg :: sess_notified ss |}.

(** The session [ss] after it has been closed. *)
Definition closed (ss : Session) : Session :=
  {| sess_device := sess_device ss; sess_udfpsHandler := sess_udfpsHandler ss;
     sess_userId := sess_userId ss; sess_cb := sess_cb ss;
     sess_lockoutTracker := sess_lockoutTracker ss;
     sess_closed := true;
     sess_linkedToDeath := sess_linkedToDeath ss;
     sess_notified := sess_notified ss |}.

(** The condition of the [CHECK] of [createSession]: the session pointer of
    [fp] is null or refers to a closed session. *)
Definition null_or_closed (w : World) (fp : Fingerprint) : Prop :=
  mSession fp = None \/
  exists s ss,
    mSession fp = Some s /\ sessions w !! s = Some ss /\ sess_closed ss = true.

(** The session pointer of [fp] refers to the session [s], which is not
    closed. *)
Definition has_open_session (w : World) (fp : Fingerprint) (s : nat) : Prop :=
  exists ss,
    mSession fp = Some s /\ sessions w !! s = Some ss /\ sess_closed ss = false.

(** The world after a completed [createSession] on the object [fp] at
    [this]. *)
Definition after_createSession (this : nat) (fp : Fingerprint) (userId : Z)
    (cb : ISessionCallback) (w : World) : World :=
  {| sInstance := sInstance w;
     objects := <[this := with_mSession (Some (length (sessions w))) fp]>
                  (objects w);
     sessions := sessions w ++ [created_session this fp userId cb];
     trace := trace w |}.

(** Every object has the enrollment limit and the gesture flag that the
    constructor gave it. *)
Definition fields_as_constructed (w : World) : Prop :=
  forall a fp,
    objects w !! a = Some fp ->
    mMaxEnrollmentsPerUser fp = MAX_ENROLLMENTS_PER_USER /\
    mSupportsGestures fp = false.

(** Every session that is not closed is the one that the session pointer of
    its service refers to. *)
Definition open_sessions_held (w : World) : Prop :=
  forall s ss,
    sessions w !! s = Some ss ->
    sess_closed ss = false ->
    exists fp,
      objects w !! sess_lockoutTracker ss = Some fp /\ mSession fp = Some s.

(** The three shapes of the calls that one run of [openHal] makes (most
    recent first): the module lookup alone, the lookup and [open], or the
    lookup, [open] and [set_notify]. *)
Definition openHal_calls (id_name : string) (class_name : option string)
    (tr : list event) : Prop :=
  tr = [ev_hw_get_module_by_class id_name class_name] \/
  (exists module,
      tr = [ev_open module; ev_hw_get_module_by_class id_name class_name]) \/
  (exists module dev err,
      tr = [ev_set_notify dev Fingerprint_notify err; ev_open module;
            ev_hw_get_module_by_class id_name class_name]).

Definition is_udfps_call (e : event) : bool :=
  match e with
  | ev_getUdfpsHandlerFactory | ev_create _ | ev_init _ _ => true
  | _ => false
  end.

(** The calls of the UDFPS part of the constructor for an object that holds
    the device at address [dev] (most recent first). *)
Definition udfps_calls (env : Env) (dev : option Z) : list event :=
  match getUdfpsHandlerFactory env with
  | None => [ev_getUdfpsHandlerFactory]
  | Some factory =>
      match create factory with
      | None => [ev_create (factory_addr factory); ev_getUdfpsHandlerFactory]
      | Some handler =>
          [ev_init (handler_addr handler) dev;
           ev_create (factory_addr factory); ev_getUdfpsHandlerFactory]
      end
  end.

(** The handler that the factory of the environment creates, if any. *)
Definition udfps_handler (env : Env) : option UdfpsHandler :=
  match getUdfpsHandlerFactory env with
  | Some factory => create factory
  | None => None
  end.

(** The two states in which the constructor leaves the device, the sensor
    type and the UDFPS members of an object: nothing opened, or the device
    that the first opening entry of [kModules] gave. *)
Definition well_constructed (env : Env) (fp : Fingerprint) : Prop :=
  match mDevice fp with
  | None =>
      mSensorType fp = UNKNOWN /\
      mUdfpsHandlerFactory fp = None /\ mUdfpsHandler fp = None /\
      Forall (fun m => openHal_returns env m None) kModules
  | Some d =>
      mSensorType fp = UNDER_DISPLAY_OPTICAL /\
      mUdfpsHandlerFactory fp = getUdfpsHandlerFactory env /\
      mUdfpsHandler fp = udfps_handler env /\
      exists l1 m l2,
        kModules = l1 ++ m :: l2 /\
        Forall (fun m' => openHal_returns env m' None) l1 /\
        openHal_returns env m (Some d)
  end.

(** The static pointer refers to the object constructed last, and every
    session pointer refers to a session made for the object that holds it. *)
Definition pointers_valid (w : World) : Prop :=
  match sInstance w with
  | None => objects w = []
  | Some a => S a = length (objects w)
  end /\
  forall a fp s,
    objects w !! a = Some fp -> mSession fp = Some s ->
    exists ss, sessions w !! s = Some ss /\ sess_lockoutTracker ss = a.

(** Every session is bound to the device and the UDFPS handler of the object
    it was made for, and linked once, to the death of the binder of its own
    callback. *)
Definition sessions_bound (w : World) : Prop :=
  forall s ss,
    sessions w !! s = Some ss ->
    sess_linkedToDeath ss = [asBinder (sess_cb ss)] /\
    exists fp,
      objects w !! sess_lockoutTracker ss = Some fp /\
      sess_device ss = mDevice fp /\
      sess_udfpsHandler ss = mUdfpsHandler fp.

(** The calls that the destructor makes on the object [fp] (most recent
    first): [destroy] for its handler, then [close] for its device. *)
Definition dtor_calls (fp : Fingerprint) : list event :=
  match mDevice fp with
  | Some d => [ev_close (dev_addr d) (close d)]
  | None => []
  end ++
  match mUdfpsHandler fp, mUdfpsHandlerFactory fp with
  | Some handler, Some factory =>
      [ev_destroy (factory_addr factory) (handler_addr handler)]
  | _, _ => []
  end.

(** The world after the service has been constructed twice in [env] and user
    10 has opened a session on the first of the two objects. *)
Definition world_two_instances (env : Env) : World :=
  exec (createSession 0 0 10 (sample_cb 100))
    (exec (Fingerprint_ctor env) (world_constructed env)).

(** A device of version 2.1 whose [close] answers -16. *)
Definition dev_busy : fingerprint_device_t :=
  {| dev_addr := 5120; version := 513; close := -16;
     set_notify := fun _ => 0%Z |}.

Definition env_busy : Env :=
  {| hw_get_module_by_class := fun _ _ =>
       (0%Z, Some (sample_module 320 dev_busy));
     getUdfpsHandlerFactory := Some sample_factory;
     properties := ∅ |}.

(** Lookups that fail, modules without [open], [open] that fails, and
    [open] that reports success without storing a device. *)
Definition env_failing : Env :=
  {| hw_get_module_by_class := fun id _ =>
       if String.eqb id "absent" then ((-2)%Z, None)
       else if String.eqb id "null" then (0%Z, None)
       else if String.eqb id "noopen"
            then (0%Z, Some {| module_addr := 384;
                               methods := {| open := None |} |})
       else if String.eqb id "openfails"
            then (0%Z, Some {| module_addr := 448;
                               methods :=
                                 {| open := Some (fun _ => ((-12)%Z, None)) |} |})
       else (0%Z, Some {| module_addr := 512;
                          methods :=
                            {| open := Some (fun _ => (0%Z, None)) |} |});
     getUdfpsHandlerFactory := None;
     properties := ∅ |}.

(** * Properties *)

(** ** Running monadic code *)

Lemma bind_Done {A B} (m : M A) (k : A -> M B) (w w' : World) (b : B) :
  bind m k w = Done b w' ->
  exists a w1, m w = Done a w1 /\ k a w1 = Done b w'.
Proof.
  unfold bind. destruct (m w) as [a w1| |]; [eauto | discriminate..].
Qed.

Lemma bind_run {A B} (m : M A) (k : A -> M B) (w w1 : World) (a : A) :
  m w = Done a w1 -> bind m k w = k a w1.
Proof. unfold bind. intros ->. reflexivity. Qed.

Lemma after_calls_nil (w : World) : after_calls [] w = w.
Proof. destruct w; reflexivity. Qed.

Lemma after_calls_app (tr1 tr2 : list event) (w : World) :
  after_calls tr1 (after_calls tr2 w) = after_calls (tr1 ++ tr2) w.
Proof. unfold after_calls; simpl. by rewrite app_assoc. Qed.

Lemma emit_after_calls (e : event) (w : World) :
  emit e w = Done tt (after_calls [e] w).
Proof. reflexivity. Qed.

(** ** openHal *)

(** The early returns of [openHal], one case each, up to the point where a
    device has been opened: [tac] closes the cases that return before it. *)
Ltac openHal_cases env id cls tac :=
  destruct (hw_get_module_by_class env id cls) as [err hw_mdl];
  destruct (negb (0 =? err)%Z); [tac|];
  destruct hw_mdl as [module|]; [|tac];
  destruct (open (methods module)) as [open_fn|]; [|tac];
  destruct (open_fn None) as [err' device];
  destruct (negb (0 =? err')%Z); [tac|];
  destruct device as [device|]; [|tac].

Lemma kVersion_value : kVersion = 513%Z.
Proof. reflexivity. Qed.

(** The calls that [openHal] makes and what it returns depend on the
    environment only: in every world it does what it does in the initial
    one.  It never aborts. *)
Lemma openHal_run (env : Env) (id : string) (cls : option string) (w : World) :
  openHal env id cls w =
    match openHal_answer env id cls with
    | Some (r, tr) => Done r (after_calls tr w)
    | None => Fault
    end.
Proof.
  unfold openHal_answer, openHal, bind, emit, ret, fault.
  openHal_cases env id cls ltac:(reflexivity).
  destruct (negb (kVersion =? version device)%Z); [reflexivity|].
  destruct (negb (0 =? set_notify device Fingerprint_notify)%Z); reflexivity.
Qed.

(** Every run of [openHal] makes exactly one module lookup, for its own
    arguments. *)
Lemma openHal_answer_lookups (env : Env) (id : string) (cls : option string)
    (r : option fingerprint_device_t) (tr : list event) :
  openHal_answer env id cls = Some (r, tr) ->
  List.filter is_module_lookup tr = [ev_hw_get_module_by_class id cls].
Proof.
  unfold openHal_answer, openHal, bind, emit, ret, fault.
  openHal_cases env id cls ltac:(first [discriminate | by intros [= <- <-]]).
  destruct (negb (kVersion =? version device)%Z); [by intros [= <- <-]|].
  destruct (negb (0 =? set_notify device Fingerprint_notify)%Z);
    by intros [= <- <-].
Qed.

Lemma openHal_returns_answer (env : Env) (m : fingerprint_hal_t)
    (r : option fingerprint_device_t) :
  openHal_returns env m r <->
  exists tr, openHal_answer env (id_name m) (class_name m) = Some (r, tr).
Proof.
  unfold openHal_returns. split.
  - intros H. destruct (H init_world) as [w' Hw']. revert Hw'.
    rewrite openHal_run.
    destruct (openHal_answer env (id_name m) (class_name m)) as [[r' tr]|];
      [|discriminate].
    intros [= -> _]. eauto.
  - intros [tr Htr] w. rewrite openHal_run, Htr. eauto.
Qed.

(** C1: [openHal] returns a device only when the version of the opened device
    is [kVersion], that is [HARDWARE_MODULE_API_VERSION(2, 1)]; when the
    module opens a device of any other version, [openHal] returns the null
    pointer, and the only calls it has made are the module lookup and [open]:
    nothing is called on the device. *)
Theorem openHal_validates_version (env : Env) (id : string)
    (cls : option string) (w : World) :
  kVersion = HARDWARE_MODULE_API_VERSION 2 1 /\
  (forall d w', openHal env id cls w = Done (Some d) w' ->
                version d = kVersion) /\
  (forall module open_fn d,
      hw_get_module_by_class env id cls = (0%Z, Some module) ->
      open (methods module) = Some open_fn ->
      open_fn None = (0%Z, Some d) ->
      version d <> kVersion ->
      openHal env id cls w =
        Done None (after_calls [ev_open (module_addr module);
                                ev_hw_get_module_by_class id cls] w)).
Proof.
  split; [reflexivity|]. split.
  - intros d w'. unfold openHal, bind, emit, ret, fault.
    openHal_cases env id cls ltac:(discriminate).
    destruct (kVersion =? version device)%Z eqn:Hver; cbn [negb];
      [|discriminate].
    destruct (negb (0 =? set_notify device Fingerprint_notify)%Z);
      [discriminate|].
    intros [= <- _]. symmetry. by apply Z.eqb_eq.
  - intros module open_fn d Hmod Hopen Hdev Hver.
    unfold openHal, bind, emit, ret. rewrite Hmod; cbn [negb Z.eqb].
    rewrite Hopen, Hdev; cbn [negb Z.eqb].
    apply not_eq_sym, Z.eqb_neq in Hver. rewrite Hver. reflexivity.
Qed.

Lemma openHal_validates_version_witness :
  version dev_goodix = kVersion /\
  openHal env_old "fingerprint" None init_world =
    Done None (after_calls [ev_open 192; ev_hw_get_module_by_class "fingerprint" None]
                           init_world).
Proof.
  split.
  - apply (proj1 (proj2 (openHal_validates_version
             env_goodix "fingerprint.goodix_fod" None init_world))
             dev_goodix
             (after_calls [ev_set_notify 4096 Fingerprint_notify 0; ev_open 64;
                           ev_hw_get_module_by_class "fingerprint.goodix_fod" None]
                          init_world)).
    reflexivity.
  - apply (proj2 (proj2 (openHal_validates_version
             env_old "fingerprint" None init_world))
             (sample_module 192 dev_old) (fun _ => (0%Z, Some dev_old)) dev_old);
      [reflexivity | reflexivity | reflexivity | vm_compute; discriminate].
Defined.

(** C2: a device that [openHal] returns has had its [set_notify] called with
    [Fingerprint::notify], as the last call made, and that call answered 0;
    when [set_notify] of the opened device of version [kVersion] answers
    anything else, [openHal] returns the null pointer. *)
Theorem openHal_registers_notify (env : Env) (id : string)
    (cls : option string) (w : World) :
  (forall d w', openHal env id cls w = Done (Some d) w' ->
     set_notify d Fingerprint_notify = 0%Z /\
     exists tr,
       w' = after_calls
              (ev_set_notify (dev_addr d) Fingerprint_notify 0 :: tr) w /\
       List.filter is_set_notify tr = []) /\
  (forall module open_fn d,
      hw_get_module_by_class env id cls = (0%Z, Some module) ->
      open (methods module) = Some open_fn ->
      open_fn None = (0%Z, Some d) ->
      version d = kVersion ->
      set_notify d Fingerprint_notify <> 0%Z ->
      openHal env id cls w =
        Done None
          (after_calls [ev_set_notify (dev_addr d) Fingerprint_notify
                          (set_notify d Fingerprint_notify);
                        ev_open (module_addr module);
                        ev_hw_get_module_by_class id cls] w)).
Proof.
  split.
  - intros d w'. unfold openHal, bind, emit, ret, fault.
    openHal_cases env id cls ltac:(discriminate).
    destruct (negb (kVersion =? version device)%Z); [discriminate|].
    destruct (0 =? set_notify device Fingerprint_notify)%Z eqn:Herr;
      cbn [negb]; [|discriminate].
    apply Z.eqb_eq in Herr. intros [= <- <-]. split; [done|].
    exists [ev_open (module_addr module); ev_hw_get_module_by_class id cls].
    rewrite <- Herr. done.
  - intros module open_fn d Hmod Hopen Hdev Hver Herr.
    apply not_eq_sym, Z.eqb_neq in Herr.
    unfold openHal, bind, emit, ret. rewrite Hmod.
    change (negb (0 =? 0)%Z) with false; cbv beta iota.
    rewrite Hopen, Hdev; cbv beta iota.
    rewrite Hver, Z.eqb_refl, Herr. reflexivity.
Qed.

Lemma openHal_registers_notify_witness :
  (set_notify dev_goodix Fingerprint_notify = 0%Z /\
   exists tr,
     after_calls [ev_set_notify 4096 Fingerprint_notify 0; ev_open 64;
                  ev_hw_get_module_by_class "fingerprint.goodix_fod" None]
                 init_world =
     after_calls (ev_set_notify (dev_addr dev_goodix) Fingerprint_notify 0 :: tr)
                 init_world /\
     List.filter is_set_notify tr = []) /\
  openHal env_refusing "fingerprint" None init_world =
    Done None
      (after_calls [ev_set_notify 4864 Fingerprint_notify (-22); ev_open 256;
                    ev_hw_get_module_by_class "fingerprint" None] init_world).
Proof.
  split.
  - apply (proj1 (openHal_registers_notify
             env_goodix "fingerprint.goodix_fod" None init_world) dev_goodix).
    reflexivity.
  - apply (proj2 (openHal_registers_notify
             env_refusing "fingerprint" None init_world)
             (sample_module 256 dev_refusing)
             (fun _ => (0%Z, Some dev_refusing)) dev_refusing);
      [reflexivity | reflexivity | reflexivity | reflexivity
      | vm_compute; discriminate].
Defined.

(** ** Objects in the store *)

Lemma modify_run (this : nat) (f : Fingerprint -> Fingerprint) (fp : Fingerprint)
    (w : World) :
  objects w !! this = Some fp ->
  modify this f w = Done tt (with_object this (f fp) w).
Proof.
  intros Hfp. unfold modify, bind, deref, store. by rewrite !Hfp.
Qed.

Lemma modify_Done (this : nat) (f : Fingerprint -> Fingerprint) (w w' : World) :
  modify this f w = Done tt w' ->
  exists fp, objects w !! this = Some fp /\ w' = with_object this (f fp) w.
Proof.
  unfold modify, bind, deref, store.
  destruct (objects w !! this) as [fp|] eqn:Hfp; [|discriminate].
  rewrite Hfp. intros [= <-]. eauto.
Qed.

Lemma with_object_lookup (this : nat) (fp fp0 : Fingerprint) (w : World) :
  objects w !! this = Some fp0 ->
  objects (with_object this fp w) !! this = Some fp.
Proof.
  intros H. simpl. apply list_lookup_insert_eq. by eapply lookup_lt_Some.
Qed.

Lemma with_object_twice (this : nat) (fp1 fp2 : Fingerprint) (w : World) :
  with_object this fp2 (with_object this fp1 w) = with_object this fp2 w.
Proof. unfold with_object; simpl. by rewrite list_insert_insert_eq. Qed.

Lemma with_object_id (this : nat) (fp : Fingerprint) (w : World) :
  objects w !! this = Some fp -> with_object this fp w = w.
Proof.
  intros H. unfold with_object. rewrite list_insert_id by done.
  by destruct w.
Qed.

Lemma loaded_id (fp : Fingerprint) : loaded (mDevice fp) (mSensorType fp) fp = fp.
Proof. by destruct fp. Qed.

(** ** The constructor *)

Section Constructor.
Context (env : Env).

(** The loop changes [mDevice] and [mSensorType] of the object under
    construction, and nothing else but the trace. *)
Lemma load_modules_Done (mods : list fingerprint_hal_t) (this : nat)
    (fp : Fingerprint) (w w' : World) :
  objects w !! this = Some fp ->
  load_modules env this mods w = Done tt w' ->
  exists tr d t, w' = with_object this (loaded d t fp) (after_calls tr w).
Proof.
  revert fp w w'. induction mods as [|m rest IH]; intros fp w w' Hfp; simpl.
  - intros [= <-]. exists [], (mDevice fp), (mSensorType fp).
    by rewrite loaded_id, after_calls_nil, with_object_id.
  - unfold bind at 1. rewrite openHal_run.
    destruct (openHal_answer env (id_name m) (class_name m)) as [[r tr]|];
      [|discriminate].
    unfold set_mDevice. unfold bind at 1.
    rewrite (modify_run _ _ fp) by done.
    destruct r as [d|].
    + unfold set_mSensorType.
      erewrite modify_run by (by eapply with_object_lookup).
      intros [= <-]. rewrite with_object_twice.
      by exists tr, (Some d), (sensor_type m).
    + intros Hrest. eapply IH in Hrest; [|by eapply with_object_lookup].
      destruct Hrest as (tr' & d & t & ->).
      exists (tr' ++ tr), d, t.
      change (after_calls tr' (with_object this ?x ?y))
        with (with_object this x (after_calls tr' y)).
      by rewrite with_object_twice, after_calls_app.
Qed.

(** When no entry opens, the loop tries them all and leaves the sensor type
    alone and the device null. *)
Lemma load_modules_none (mods : list fingerprint_hal_t) (this : nat)
    (fp : Fingerprint) (w : World) :
  Forall (fun m => openHal_returns env m None) mods ->
  objects w !! this = Some fp ->
  mDevice fp = None ->
  exists tr,
    load_modules env this mods w =
      Done tt (with_object this fp (after_calls tr w)) /\
    List.filter is_module_lookup tr = rev (map lookup_of mods).
Proof.
  intros Hall. revert fp w.
  induction Hall as [|m rest Hm _ IH]; intros fp w Hfp Hdev; simpl.
  - exists []. by rewrite after_calls_nil, with_object_id.
  - apply openHal_returns_answer in Hm as [tr Htr].
    unfold bind at 1. rewrite openHal_run, Htr.
    unfold set_mDevice. unfold bind at 1.
    rewrite (modify_run _ _ fp) by done.
    assert (Hsame : loaded None (mSensorType fp) fp = fp)
      by (destruct fp; simpl in *; by subst).
    change (with_object this _ (after_calls tr w))
      with (with_object this (loaded None (mSensorType fp) fp)
              (after_calls tr w)).
    rewrite Hsame, with_object_id by done.
    destruct (IH fp (after_calls tr w) Hfp Hdev) as (tr' & -> & Hlook).
    exists (tr' ++ tr). rewrite after_calls_app. split; [done|].
    rewrite List.filter_app, Hlook.
    by rewrite (openHal_answer_lookups _ _ _ _ _ Htr).
Qed.

(** The loop stops at the first entry that opens. *)
Lemma load_modules_first (l1 l2 : list fingerprint_hal_t)
    (m : fingerprint_hal_t) (d : fingerprint_device_t) (this : nat)
    (fp : Fingerprint) (w : World) :
  Forall (fun m' => openHal_returns env m' None) l1 ->
  openHal_returns env m (Some d) ->
  objects w !! this = Some fp ->
  mDevice fp = None ->
  exists tr,
    load_modules env this (l1 ++ m :: l2) w =
      Done tt (with_object this (loaded (Some d) (sensor_type m) fp)
                 (after_calls tr w)) /\
    List.filter is_module_lookup tr = rev (map lookup_of (l1 ++ [m])).
Proof.
  intros Hall Hm. revert fp w.
  induction Hall as [|m' rest Hm' _ IH]; intros fp w Hfp Hdev; simpl.
  - apply openHal_returns_answer in Hm as [tr Htr].
    unfold bind at 1. rewrite openHal_run, Htr.
    unfold set_mDevice. unfold bind at 1.
    rewrite (modify_run _ _ fp) by done.
    unfold set_mSensorType.
    erewrite modify_run by (by eapply with_object_lookup).
    rewrite with_object_twice. exists tr. split; [done|].
    by rewrite (openHal_answer_lookups _ _ _ _ _ Htr).
  - apply openHal_returns_answer in Hm' as [tr Htr].
    unfold bind at 1. rewrite openHal_run, Htr.
    unfold set_mDevice. unfold bind at 1.
    rewrite (modify_run _ _ fp) by done.
    assert (Hsame : loaded None (mSensorType fp) fp = fp)
      by (destruct fp; simpl in *; by subst).
    change (with_object this _ (after_calls tr w))
      with (with_object this (loaded None (mSensorType fp) fp)
              (after_calls tr w)).
    rewrite Hsame, with_object_id by done.
    destruct (IH fp (after_calls tr w) Hfp Hdev) as (tr' & -> & Hlook).
    exists (tr' ++ tr). rewrite after_calls_app. split; [done|].
    rewrite List.filter_app, Hlook.
    rewrite (openHal_answer_lookups _ _ _ _ _ Htr).
    done.
Qed.

(** The UDFPS part of the constructor always completes; it changes the
    factory and the handler of the object, and looks up no module. *)
Lemma ctor_udfps_run (this : nat) (fp : Fingerprint) (w : World) :
  objects w !! this = Some fp ->
  exists tr f h,
    ctor_udfps env this w =
      Done tt (with_object this (with_udfps f h fp) (after_calls tr w)) /\
    List.filter is_module_lookup tr = [].
Proof.
  intros Hfp. unfold ctor_udfps. unfold bind at 1. unfold deref at 1.
  rewrite Hfp.
  assert (Hid : with_udfps (mUdfpsHandlerFactory fp) (mUdfpsHandler fp) fp = fp)
    by (by destruct fp).
  destruct (is_under_display (mSensorType fp)).
  - unfold bind at 1. rewrite emit_after_calls.
    unfold set_mUdfpsHandlerFactory. unfold bind at 1.
    rewrite (modify_run _ _ fp) by done.
    destruct (getUdfpsHandlerFactory env) as [factory|].
    + unfold bind at 1. rewrite emit_after_calls.
      unfold set_mUdfpsHandler. unfold bind at 1.
      erewrite modify_run by (by eapply with_object_lookup).
      destruct (create factory) as [handler|].
      * unfold bind at 1. unfold deref.
        erewrite with_object_lookup
          by (by eapply with_object_lookup).
        rewrite emit_after_calls.
        exists [ev_init (handler_addr handler) (dev_addr <$> mDevice fp);
                ev_create (factory_addr factory); ev_getUdfpsHandlerFactory],
          (Some factory), (Some handler).
        split; [|reflexivity].
        unfold with_object, after_calls; simpl.
        by rewrite list_insert_insert_eq.
      * exists [ev_create (factory_addr factory); ev_getUdfpsHandlerFactory],
          (Some factory), None.
        split; [|reflexivity].
        unfold ret, with_object, after_calls; simpl.
        by rewrite list_insert_insert_eq.
    + by exists [ev_getUdfpsHandlerFactory], None, (mUdfpsHandler fp).
  - exists [], (mUdfpsHandlerFactory fp), (mUdfpsHandler fp).
    by rewrite Hid, after_calls_nil, with_object_id.
Qed.

(** The world in which the loop of the constructor starts. *)
Lemma ctor_prologue (w : World) (k : nat -> M nat) :
  bind (alloc member_initializers)
       (fun this => bind (set_sInstance (Some this)) (fun _ => k this)) w =
  k (length (objects w))
    {| sInstance := Some (length (objects w));
       objects := objects w ++ [member_initializers];
       sessions := sessions w; trace := trace w |}.
Proof. reflexivity. Qed.

Lemma lookup_fresh_object (w : World) (fp : Fingerprint) :
  (objects w ++ [fp]) !! length (objects w) = Some fp.
Proof. by rewrite list_lookup_middle. Qed.

(** The world that a completed constructor leaves: one more object, the
    static pointer on it, the sessions as they were. *)
Lemma ctor_Done (w w' : World) (this : nat) :
  Fingerprint_ctor env w = Done this w' ->
  this = length (objects w) /\
  exists tr d t f h,
    w' = {| sInstance := Some this;
            objects := objects w ++
                         [with_udfps f h (loaded d t member_initializers)];
            sessions := sessions w; trace := tr ++ trace w |}.
Proof.
  unfold Fingerprint_ctor. rewrite ctor_prologue.
  set (w1 := {| sInstance := _ |}).
  assert (H1 : objects w1 !! length (objects w) = Some member_initializers)
    by apply lookup_fresh_object.
  intros Hrun. apply bind_Done in Hrun as ([] & w2 & Hload & Hrun).
  apply (load_modules_Done _ _ _ _ _ H1) in Hload as (tr & d & t & ->).
  apply bind_Done in Hrun as ([] & w3 & Hudfps & Hrun).
  injection Hrun as <- <-. split; [done|].
  destruct (ctor_udfps_run (length (objects w))
              (loaded d t member_initializers)
              (with_object (length (objects w))
                 (loaded d t member_initializers) (after_calls tr w1)))
    as (tr' & f & h & Hu & _); [by eapply with_object_lookup|].
  rewrite Hu in Hudfps. injection Hudfps as <-.
  exists (tr' ++ tr), d, t, f, h.
  unfold with_object, after_calls, w1; simpl.
  rewrite list_insert_insert_eq, app_assoc. f_equal.
  rewrite insert_app_r_alt by done. by rewrite Nat.sub_diag.
Qed.

End Constructor.

(** C3: the constructor tries the entries of [kModules] in order,
    "fingerprint.goodix_fod" then "fingerprint".  When [openHal] returns the
    null pointer for the entries before [m] and a device [d] for [m], the
    constructed object holds [d] in [mDevice] and the sensor type of [m] in
    [mSensorType], and the module lookups made are those of the entries up to
    [m], in order, and no later one (the trace has the most recent call
    first).  When [openHal] returns the null pointer
    for every entry, [mDevice] is null and [mSensorType] is [UNKNOWN]. *)
Theorem ctor_loads_first_module (env : Env) (w : World) :
  map id_name kModules = ["fingerprint.goodix_fod"; "fingerprint"] /\
  (forall l1 m l2 d,
      kModules = l1 ++ m :: l2 ->
      Forall (fun m' => openHal_returns env m' None) l1 ->
      openHal_returns env m (Some d) ->
      exists w' fp tr,
        Fingerprint_ctor env w = Done (length (objects w)) w' /\
        objects w' !! length (objects w) = Some fp /\
        mDevice fp = Some d /\
        mSensorType fp = sensor_type m /\
        trace w' = tr ++ trace w /\
        List.filter is_module_lookup tr = rev (map lookup_of (l1 ++ [m]))) /\
  (Forall (fun m => openHal_returns env m None) kModules ->
   exists w' fp tr,
     Fingerprint_ctor env w = Done (length (objects w)) w' /\
     objects w' !! length (objects w) = Some fp /\
     mDevice fp = None /\
     mSensorType fp = UNKNOWN /\
     trace w' = tr ++ trace w /\
     List.filter is_module_lookup tr = rev (map lookup_of kModules)).
Proof.
  split; [reflexivity|].
  pose (w1 := {| sInstance := Some (length (objects w));
                 objects := objects w ++ [member_initializers];
                 sessions := sessions w; trace := trace w |}).
  assert (H1 : objects w1 !! length (objects w) = Some member_initializers)
    by apply lookup_fresh_object.
  split.
  - intros l1 m l2 d Hk Hl1 Hm.
    destruct (load_modules_first env l1 l2 m d _ _ _ Hl1 Hm H1 eq_refl)
      as (tr & Hload & Hlook).
    destruct (ctor_udfps_run env (length (objects w))
                (loaded (Some d) (sensor_type m) member_initializers)
                (with_object (length (objects w))
                   (loaded (Some d) (sensor_type m) member_initializers)
                   (after_calls tr w1)))
      as (tr' & f & h & Hu & Hnone); [by eapply with_object_lookup|].
    eexists _, _, (tr' ++ tr). split.
    + unfold Fingerprint_ctor. rewrite ctor_prologue. fold w1.
      rewrite Hk. erewrite bind_run by apply Hload.
      erewrite bind_run by apply Hu. reflexivity.
    + split; [by eapply with_object_lookup, with_object_lookup|].
      split; [done|]. split; [done|]. split; [simpl; by rewrite app_assoc|].
      by rewrite List.filter_app, Hnone.
  - intros Hall.
    destruct (load_modules_none env kModules _ _ _ Hall H1 eq_refl)
      as (tr & Hload & Hlook).
    destruct (ctor_udfps_run env (length (objects w)) member_initializers
                (with_object (length (objects w)) member_initializers
                   (after_calls tr w1)))
      as (tr' & f & h & Hu & Hnone); [by eapply with_object_lookup|].
    eexists _, _, (tr' ++ tr). split.
    + unfold Fingerprint_ctor. rewrite ctor_prologue. fold w1.
      erewrite bind_run by apply Hload.
      erewrite bind_run by apply Hu. reflexivity.
    + split; [by eapply with_object_lookup, with_object_lookup|].
      split; [done|]. split; [done|]. split; [simpl; by rewrite app_assoc|].
      by rewrite List.filter_app, Hnone.
Qed.

Lemma ctor_loads_first_module_witness :
  (exists w' fp tr,
      Fingerprint_ctor env_generic init_world = Done 0 w' /\
      objects w' !! 0 = Some fp /\
      mDevice fp = Some dev_generic /\
      mSensorType fp = UNDER_DISPLAY_OPTICAL /\
      trace w' = tr ++ [] /\
      List.filter is_module_lookup tr =
        [ev_hw_get_module_by_class "fingerprint" None;
         ev_hw_get_module_by_class "fingerprint.goodix_fod" None]) /\
  (exists w' fp tr,
      Fingerprint_ctor env_old init_world = Done 0 w' /\
      objects w' !! 0 = Some fp /\
      mDevice fp = None /\
      mSensorType fp = UNKNOWN /\
      trace w' = tr ++ [] /\
      List.filter is_module_lookup tr =
        [ev_hw_get_module_by_class "fingerprint" None;
         ev_hw_get_module_by_class "fingerprint.goodix_fod" None]).
Proof.
  split.
  - apply (proj1 (proj2 (ctor_loads_first_module env_generic init_world))
             [ {| id_name := "fingerprint.goodix_fod"; class_name := None;
                  sensor_type := UNDER_DISPLAY_OPTICAL |} ]
             {| id_name := "fingerprint"; class_name := None;
                sensor_type := UNDER_DISPLAY_OPTICAL |}
             [] dev_generic).
    + reflexivity.
    + constructor; [|constructor]. intros w.
      exists (after_calls
                [ev_hw_get_module_by_class "fingerprint.goodix_fod" None] w).
      vm_compute. reflexivity.
    + intros w.
      exists (after_calls
                [ev_set_notify 4352 Fingerprint_notify 0; ev_open 128;
                 ev_hw_get_module_by_class "fingerprint" None] w).
      vm_compute. reflexivity.
  - apply (proj2 (proj2 (ctor_loads_first_module env_old init_world))).
    constructor; [|constructor; [|constructor]]; intros w.
    + exists (after_calls
                [ev_open 192;
                 ev_hw_get_module_by_class "fingerprint.goodix_fod" None] w).
      vm_compute. reflexivity.
    + exists (after_calls
                [ev_open 192; ev_hw_get_module_by_class "fingerprint" None] w).
      vm_compute. reflexivity.
Defined.

(** ** createSession *)

Lemma lookup_fresh {A} (l : list A) (x : A) : (l ++ [x]) !! length l = Some x.
Proof. by rewrite list_lookup_middle. Qed.

(** When the [CHECK] holds, [createSession] completes. *)
Lemma createSession_run (this : nat) (sensorId userId : Z)
    (cb : ISessionCallback) (fp : Fingerprint) (w : World) :
  objects w !! this = Some fp ->
  null_or_closed w fp ->
  createSession this sensorId userId cb w =
    Done (ok, Some (length (sessions w)))
         (after_createSession this fp userId cb w).
Proof.
  intros Hfp Hcheck. unfold createSession. unfold bind at 1. unfold deref at 1.
  rewrite Hfp.
  assert (Hc : bind match mSession fp with
                    | Some s => Session_isClosed s
                    | None => ret true
                    end
                 (fun check => ret check) w = Done true w).
  { destruct Hcheck as [->|(s & ss & -> & Hss & Hcl)]; [done|].
    unfold Session_isClosed, bind, deref_session, ret. by rewrite Hss, Hcl. }
  unfold bind at 1. unfold bind in Hc.
  destruct (match mSession fp with
            | Some s => Session_isClosed s
            | None => ret true
            end w) as [check w1| |]; [|discriminate..].
  injection Hc as -> ->. cbn [negb].
  unfold Session_make, set_mSession, alloc_session. unfold bind at 1.
  unfold bind at 1. erewrite modify_run by done.
  unfold bind at 1. unfold deref at 1.
  erewrite with_object_lookup by done. cbn [mSession].
  unfold Session_linkToDeath, bind, deref_session, store_session, ret.
  cbn [sessions with_object]. rewrite ?lookup_fresh. cbn.
  rewrite ?lookup_fresh. unfold after_createSession.
  rewrite insert_app_r_alt by done. by rewrite Nat.sub_diag.
Qed.

(** When the session pointer refers to a session that is not closed, the
    [CHECK] fails and the process aborts, in the world as it was. *)
Lemma createSession_abort (this : nat) (sensorId userId : Z)
    (cb : ISessionCallback) (fp : Fingerprint) (s : nat) (w : World) :
  objects w !! this = Some fp ->
  has_open_session w fp s ->
  createSession this sensorId userId cb w = Abort w.
Proof.
  intros Hfp (ss & Hs & Hss & Hcl).
  unfold createSession. unfold bind at 1. unfold deref at 1. rewrite Hfp, Hs.
  unfold bind at 1. unfold Session_isClosed, bind, deref_session, ret.
  by rewrite Hss, Hcl.
Qed.

(** A completed [createSession] passed the [CHECK]. *)
Lemma createSession_Done (this : nat) (sensorId userId : Z)
    (cb : ISessionCallback) (w w' : World) (r : ScopedAStatus * option nat) :
  createSession this sensorId userId cb w = Done r w' ->
  exists fp,
    objects w !! this = Some fp /\
    null_or_closed w fp /\
    r = (ok, Some (length (sessions w))) /\
    w' = after_createSession this fp userId cb w.
Proof.
  intros Hrun.
  destruct (objects w !! this) as [fp|] eqn:Hfp;
    [|by unfold createSession, bind, deref in Hrun; rewrite Hfp in Hrun].
  assert (Hcases : null_or_closed w fp \/
                   (exists s, has_open_session w fp s) \/
                   (exists s, mSession fp = Some s /\ sessions w !! s = None)).
  { unfold null_or_closed, has_open_session.
    destruct (mSession fp) as [s|]; [|by left; left].
    destruct (sessions w !! s) as [ss|] eqn:Hss; [|right; right; eauto].
    destruct (sess_closed ss) eqn:Hcl; [left; right|right; left]; eauto. }
  destruct Hcases as [Hcheck|[[s Hopen]|(s & Hs & Hss)]].
  - rewrite (createSession_run _ _ _ _ fp) in Hrun by done.
    injection Hrun as <- <-. eauto.
  - by rewrite (createSession_abort _ _ _ _ fp s) in Hrun.
  - unfold createSession, bind, deref in Hrun. rewrite Hfp, Hs in Hrun.
    unfold Session_isClosed, bind, deref_session in Hrun.
    by rewrite Hss in Hrun.
Qed.

(** ** notify *)

(** The message is forwarded to the open session of the recorded instance. *)
Lemma notify_forwards (msg : fingerprint_msg_t) (w : World) (a s : nat)
    (fp : Fingerprint) (ss : Session) :
  sInstance w = Some a ->
  objects w !! a = Some fp ->
  mSession fp = Some s ->
  sessions w !! s = Some ss ->
  sess_closed ss = false ->
  notify msg w = Done tt (with_session s (notified msg ss) w).
Proof.
  intros Hi Hfp Hs Hss Hcl.
  unfold notify, bind, get_sInstance, deref. rewrite Hi, Hfp, Hs.
  unfold Session_isClosed, bind, deref_session, ret. rewrite Hss, Hcl, Hfp, Hs.
  unfold Session_notify, bind, deref_session, store_session.
  by rewrite !Hss.
Qed.

(** What a completed [notify] has done: nothing, or forwarded the message. *)
Lemma notify_Done (msg : fingerprint_msg_t) (w w' : World) :
  notify msg w = Done tt w' ->
  w' = w \/
  exists a fp s ss,
    sInstance w = Some a /\ objects w !! a = Some fp /\
    mSession fp = Some s /\ sessions w !! s = Some ss /\
    sess_closed ss = false /\
    w' = with_session s (notified msg ss) w.
Proof.
  intros Hrun.
  destruct (sInstance w) as [a|] eqn:Hi;
    [|unfold notify, bind, get_sInstance, ret in Hrun; rewrite Hi in Hrun;
      left; congruence].
  destruct (objects w !! a) as [fp|] eqn:Hfp;
    [|by unfold notify, bind, get_sInstance, deref in Hrun;
      rewrite Hi, Hfp in Hrun].
  destruct (mSession fp) as [s|] eqn:Hs;
    [|unfold notify, bind, get_sInstance, deref, ret in Hrun;
      rewrite Hi, Hfp, Hs in Hrun; left; congruence].
  destruct (sessions w !! s) as [ss|] eqn:Hss;
    [|unfold notify, Session_isClosed, get_sInstance, deref, deref_session,
        bind in Hrun;
      rewrite Hi, Hfp, Hs in Hrun; cbv beta iota in Hrun;
      by rewrite Hss in Hrun].
  destruct (sess_closed ss) eqn:Hcl.
  - unfold notify, Session_isClosed, get_sInstance, deref, deref_session,
      bind, ret in Hrun.
    rewrite Hi, Hfp, Hs in Hrun; cbv beta iota in Hrun.
    rewrite Hss, Hcl in Hrun. left; congruence.
  - rewrite (notify_forwards _ _ a s fp ss) in Hrun by done.
    right. exists a, fp, s, ss. repeat split; congruence.
Qed.

(** ** Session::close *)

Lemma Session_close_Done (s : nat) (w w' : World) :
  Session_close s w = Done tt w' ->
  exists ss, sessions w !! s = Some ss /\ w' = with_session s (closed ss) w.
Proof.
  unfold Session_close, bind, deref_session, store_session.
  destruct (sessions w !! s) as [ss|] eqn:Hss; [|discriminate].
  rewrite Hss. intros [= <-]. eauto.
Qed.

(** ** getSensorProps *)

Lemma getSensorProps_Done (env : Env) (this : nat) (w w' : World)
    (r : ScopedAStatus * list SensorProps) :
  getSensorProps env this w = Done r w' ->
  w' = w /\ exists fp, objects w !! this = Some fp.
Proof.
  unfold getSensorProps, bind, deref, ret.
  destruct (objects w !! this) as [fp|]; [|discriminate].
  intros [= _ <-]. eauto.
Qed.

(** ** Invariants of the runs *)

Section Invariants.
Context (env : Env).

Lemma fields_as_constructed_step (w w' : World) :
  step env w w' -> fields_as_constructed w -> fields_as_constructed w'.
Proof.
  intros Hstep Hinv a fp'.
  destruct Hstep as [w this w' Hrun|w this r w' Hrun
                    |w this sensorId userId cb r w' Hrun|w msg w' Hrun
                    |w s w' Hrun].
  - apply ctor_Done in Hrun as (-> & tr & d & t & f & h & ->). simpl.
    intros Hl. apply lookup_app_Some in Hl as [Hl|[_ Hl]]; [by eapply Hinv|].
    apply list_lookup_singleton_Some in Hl as [_ <-]. done.
  - apply getSensorProps_Done in Hrun as [-> _]. apply Hinv.
  - apply createSession_Done in Hrun as (fp & Hfp & _ & _ & ->). simpl.
    intros Hl. apply list_lookup_insert_Some in Hl as [(-> & <- & _)|[_ Hl]];
      [by apply (Hinv _ _ Hfp)|by eapply Hinv].
  - apply notify_Done in Hrun as [->|(? & ? & ? & ? & _ & _ & _ & _ & _ & ->)];
      apply Hinv.
  - apply Session_close_Done in Hrun as (ss & _ & ->). apply Hinv.
Qed.

Lemma open_sessions_held_step (w w' : World) :
  step env w w' -> open_sessions_held w -> open_sessions_held w'.
Proof.
  intros Hstep Hinv s' ss'.
  destruct Hstep as [w this w' Hrun|w this r w' Hrun
                    |w this sensorId userId cb r w' Hrun|w msg w' Hrun
                    |w s w' Hrun].
  - apply ctor_Done in Hrun as (-> & tr & d & t & f & h & ->). simpl.
    intros Hs Hcl. destruct (Hinv _ _ Hs Hcl) as (fp & Hfp & Hp).
    exists fp. split; [|done]. by apply lookup_app_l_Some.
  - apply getSensorProps_Done in Hrun as [-> _]. apply Hinv.
  - apply createSession_Done in Hrun as (fp & Hfp & Hcheck & _ & ->). simpl.
    intros Hs Hcl. apply lookup_app_Some in Hs as [Hs|[Hle Hs]].
    + destruct (Hinv _ _ Hs Hcl) as (fp0 & Hfp0 & Hp).
      destruct (decide (this = sess_lockoutTracker ss')) as [->|Hne].
      * exfalso. rewrite Hfp in Hfp0. injection Hfp0 as <-.
        destruct Hcheck as [Hnull|(s0 & ss0 & Hp0 & Hs0 & Hcl0)];
          congruence.
      * exists fp0. by rewrite list_lookup_insert_ne.
    + apply list_lookup_singleton_Some in Hs as [Hs <-]. simpl.
      exists (with_mSession (Some (length (sessions w))) fp). split.
      * apply list_lookup_insert_eq. by eapply lookup_lt_Some.
      * simpl. f_equal. lia.
  - apply notify_Done in Hrun
      as [->|(a & fp & s & ss & _ & _ & _ & Hss & _ & ->)]; [apply Hinv|].
    simpl. intros Hs Hcl.
    apply list_lookup_insert_Some in Hs as [(-> & <- & _)|[_ Hs]];
      [by apply (Hinv _ _ Hss)|by apply Hinv].
  - apply Session_close_Done in Hrun as (ss & Hss & ->). simpl.
    intros Hs Hcl.
    apply list_lookup_insert_Some in Hs as [(-> & <- & _)|[_ Hs]];
      [discriminate|by apply Hinv].
Qed.

Lemma reachable_invariants (w : World) :
  reachable env w -> fields_as_constructed w /\ open_sessions_held w.
Proof.
  unfold reachable. revert w.
  apply (rtc_ind_r
           (fun w => fields_as_constructed w /\ open_sessions_held w)).
  - split; intros ? ? Hl; simpl in Hl; by rewrite lookup_nil in Hl.
  - intros w1 w2 _ Hstep [IH1 IH2].
    split; [by eapply fields_as_constructed_step
           |by eapply open_sessions_held_step].
Qed.

End Invariants.

(** ** The sample worlds are worlds of runs *)

Lemma reachable_constructed (env : Env) :
  Fingerprint_ctor env init_world = Done 0 (world_constructed env) ->
  reachable env (world_constructed env).
Proof. intros Hrun. by eapply rtc_once, step_ctor. Qed.

Lemma reachable_constructed_goodix :
  reachable env_goodix (world_constructed env_goodix).
Proof. apply reachable_constructed. vm_compute. reflexivity. Qed.

Lemma reachable_constructed_generic :
  reachable env_generic (world_constructed env_generic).
Proof. apply reachable_constructed. vm_compute. reflexivity. Qed.

Lemma reachable_constructed_old :
  reachable env_old (world_constructed env_old).
Proof. apply reachable_constructed. vm_compute. reflexivity. Qed.

Lemma reachable_session_open_goodix :
  reachable env_goodix (world_session_open env_goodix).
Proof.
  eapply rtc_r; [apply reachable_constructed_goodix|].
  apply (step_createSession _ _ 0 0%Z 10%Z (sample_cb 100) (ok, Some 0)).
  vm_compute. reflexivity.
Qed.

Lemma reachable_session_closed_goodix :
  reachable env_goodix (world_session_closed env_goodix).
Proof.
  eapply rtc_r; [apply reachable_session_open_goodix|].
  apply (step_close _ _ 0). vm_compute. reflexivity.
Qed.

(** ** getSensorProps *)

(** [getSensorProps] completes on every object, in the world as it was. *)
Lemma getSensorProps_total (env : Env) (this : nat) (fp : Fingerprint)
    (w : World) :
  objects w !! this = Some fp ->
  exists p, getSensorProps env this w = Done (ok, [p]) w.
Proof.
  intros Hfp. unfold getSensorProps, bind, deref, ret. rewrite Hfp. eauto.
Qed.

(** C4: in every world of a run of the service and on every object of it,
    [getSensorProps] writes a vector of exactly one [SensorProps]: sensor id 0,
    strength STRONG, at most 7 enrollments per user, the two component infos
    of "fingerprintSensor" and "matchingAlgorithm", the sensor type that the
    object holds, and no support for navigation gestures. *)
Theorem getSensorProps_common_props (env : Env) (w : World) (this : nat)
    (fp : Fingerprint) :
  reachable env w ->
  objects w !! this = Some fp ->
  exists p,
    getSensorProps env this w = Done (ok, [p]) w /\
    commonProps p =
      {| sensorId := 0; sensorStrength := STRONG; maxEnrollmentsPerUser := 7;
         componentInfo :=
           [ {| componentId := "fingerprintSensor";
                hardwareVersion := "vendor/model/revision";
                firmwareVersion := "1.01"; serialNumber := "00000001";
                softwareVersion := "" |};
             {| componentId := "matchingAlgorithm"; hardwareVersion := "";
                firmwareVersion := ""; serialNumber := "";
                softwareVersion := "vendor/version/revision" |} ] |} /\
    sensorType p = mSensorType fp /\
    supportsNavigationGestures p = false.
Proof.
  intros Hreach Hfp.
  apply reachable_invariants in Hreach as [Hinv _].
  destruct (Hinv _ _ Hfp) as [Hmax Hgest].
  unfold getSensorProps, bind, deref, ret. rewrite Hfp.
  eexists. split; [reflexivity|]. simpl. rewrite Hmax, Hgest. done.
Qed.

Lemma getSensorProps_common_props_witness :
  exists p,
    getSensorProps env_goodix 0 (world_constructed env_goodix) =
      Done (ok, [p]) (world_constructed env_goodix) /\
    commonProps p =
      {| sensorId := 0; sensorStrength := STRONG; maxEnrollmentsPerUser := 7;
         componentInfo :=
           [ {| componentId := "fingerprintSensor";
                hardwareVersion := "vendor/model/revision";
                firmwareVersion := "1.01"; serialNumber := "00000001";
                softwareVersion := "" |};
             {| componentId := "matchingAlgorithm"; hardwareVersion := "";
                firmwareVersion := ""; serialNumber := "";
                softwareVersion := "vendor/version/revision" |} ] |} /\
    sensorType p = UNDER_DISPLAY_OPTICAL /\
    supportsNavigationGestures p = false.
Proof.
  apply (getSensorProps_common_props env_goodix (world_constructed env_goodix) 0
           (with_udfps (Some sample_factory) (Some {| handler_addr := 8200 |})
              (loaded (Some dev_goodix) UNDER_DISPLAY_OPTICAL
                 member_initializers))).
  - apply reachable_constructed_goodix.
  - vm_compute. reflexivity.
Defined.

(** C9: [getSensorProps] reads the three properties
    ro.vendor.feature.fingerprint_sensorui_position_center_x, _y and _r with
    the default -1, so that an absent property reads as -1.  When the three
    values read are all nonnegative, the only sensor location written is made
    of them; when one of them is negative, it is the default-constructed
    location. *)
Theorem getSensorProps_sensor_location (env : Env) (w : World) (this : nat)
    (fp : Fingerprint) :
  let x := property_get_int32 env
             "ro.vendor.feature.fingerprint_sensorui_position_center_x" (-1) in
  let y := property_get_int32 env
             "ro.vendor.feature.fingerprint_sensorui_position_center_y" (-1) in
  let r := property_get_int32 env
             "ro.vendor.feature.fingerprint_sensorui_position_center_r" (-1) in
  objects w !! this = Some fp ->
  (forall key, properties env !! key = None ->
               property_get_int32 env key (-1) = (-1)%Z) /\
  exists p,
    getSensorProps env this w = Done (ok, [p]) w /\
    ((0 <= x)%Z /\ (0 <= y)%Z /\ (0 <= r)%Z ->
     sensorLocations p =
       [ {| sensorLocationX := x; sensorLocationY := y; sensorRadius := r |} ]) /\
    ((x < 0)%Z \/ (y < 0)%Z \/ (r < 0)%Z ->
     sensorLocations p = [default_SensorLocation]).
Proof.
  intros x y r Hfp. split.
  - intros key Hkey. unfold property_get_int32. by rewrite Hkey.
  - unfold getSensorProps, bind, deref, ret. rewrite Hfp.
    eexists. split; [reflexivity|]. cbn [sensorLocations]. fold x y r.
    split.
    + intros (Hx & Hy & Hr).
      apply Z.leb_le in Hx, Hy, Hr. by rewrite Hx, Hy, Hr.
    + intros Hneg.
      assert (Hb : ((0 <=? x) && (0 <=? y) && (0 <=? r))%Z = false).
      { apply not_true_is_false. intros Hb.
        apply andb_prop in Hb as [Hb Hr]. apply andb_prop in Hb as [Hx Hy].
        apply Z.leb_le in Hx, Hy, Hr. lia. }
      by rewrite Hb.
Qed.

Lemma getSensorProps_sensor_location_witness :
  (exists p,
      getSensorProps env_goodix 0 (world_constructed env_goodix) =
        Done (ok, [p]) (world_constructed env_goodix) /\
      sensorLocations p =
        [ {| sensorLocationX := 540; sensorLocationY := 2163;
             sensorRadius := 118 |} ]) /\
  (property_get_int32 env_generic
     "ro.vendor.feature.fingerprint_sensorui_position_center_x" (-1) = (-1)%Z /\
   exists p,
     getSensorProps env_generic 0 (world_constructed env_generic) =
       Done (ok, [p]) (world_constructed env_generic) /\
     sensorLocations p = [default_SensorLocation]).
Proof.
  split.
  - destruct (getSensorProps_sensor_location
                env_goodix (world_constructed env_goodix) 0
                (with_udfps (Some sample_factory)
                   (Some {| handler_addr := 8200 |})
                   (loaded (Some dev_goodix) UNDER_DISPLAY_OPTICAL
                      member_initializers)))
      as (_ & p & Hrun & Hall & _); [vm_compute; reflexivity|].
    exists p. split; [exact Hrun|].
    apply Hall. vm_compute. repeat split; discriminate.
  - destruct (getSensorProps_sensor_location
                env_generic (world_constructed env_generic) 0
                (with_udfps None None
                   (loaded (Some dev_generic) UNDER_DISPLAY_OPTICAL
                      member_initializers)))
      as (Habsent & p & Hrun & _ & Hneg); [vm_compute; reflexivity|].
    split; [apply Habsent; vm_compute; reflexivity|].
    exists p. split; [exact Hrun|].
    apply Hneg. left. vm_compute. reflexivity.
Defined.

(** C10: [getSensorProps] is read-only.  A completed call leaves the world as
    it was: every object with all its data members, the static pointer, the
    sessions and the calls made.  What it writes through [out] is a function
    of the sensor type, the enrollment limit and the gesture flag of the
    object and of the values of the three sensor-location properties: two
    calls that agree on these write the same vector. *)
Theorem getSensorProps_read_only :
  (forall env this w r w',
      getSensorProps env this w = Done r w' ->
      w' = w /\ forall a, objects w' !! a = objects w !! a) /\
  (forall env1 env2 this1 this2 w1 w2 fp1 fp2,
      objects w1 !! this1 = Some fp1 ->
      objects w2 !! this2 = Some fp2 ->
      mSensorType fp1 = mSensorType fp2 ->
      mMaxEnrollmentsPerUser fp1 = mMaxEnrollmentsPerUser fp2 ->
      mSupportsGestures fp1 = mSupportsGestures fp2 ->
      (forall key,
          key ∈ ["ro.vendor.feature.fingerprint_sensorui_position_center_x";
                 "ro.vendor.feature.fingerprint_sensorui_position_center_y";
                 "ro.vendor.feature.fingerprint_sensorui_position_center_r"] ->
          properties env1 !! key = properties env2 !! key) ->
      exists out,
        getSensorProps env1 this1 w1 = Done (ok, out) w1 /\
        getSensorProps env2 this2 w2 = Done (ok, out) w2).
Proof.
  split.
  - intros env this w r w' Hrun.
    apply getSensorProps_Done in Hrun as [-> _]. done.
  - intros env1 env2 this1 this2 w1 w2 fp1 fp2 H1 H2 Ht Hm Hg Hprops.
    unfold getSensorProps, bind, deref, ret. rewrite H1, H2.
    unfold property_get_int32. rewrite Ht, Hm, Hg.
    rewrite !Hprops by (rewrite !elem_of_cons; tauto).
    eexists; split; reflexivity.
Qed.

Lemma getSensorProps_read_only_witness :
  (world_session_open env_goodix = world_session_open env_goodix /\
   forall a, objects (world_session_open env_goodix) !! a =
             objects (world_session_open env_goodix) !! a) /\
  exists out,
    getSensorProps env_goodix 0 (world_constructed env_goodix) =
      Done (ok, out) (world_constructed env_goodix) /\
    getSensorProps env_goodix 0 (world_session_open env_goodix) =
      Done (ok, out) (world_session_open env_goodix).
Proof.
  split.
  - apply (proj1 getSensorProps_read_only env_goodix 0
             (world_session_open env_goodix)
             (ok, [ {| commonProps :=
                         {| sensorId := 0; sensorStrength := STRONG;
                            maxEnrollmentsPerUser := 7;
                            componentInfo :=
                              [ {| componentId := "fingerprintSensor";
                                   hardwareVersion := "vendor/model/revision";
                                   firmwareVersion := "1.01";
                                   serialNumber := "00000001";
                                   softwareVersion := "" |};
                                {| componentId := "matchingAlgorithm";
                                   hardwareVersion := "";
                                   firmwareVersion := ""; serialNumber := "";
                                   softwareVersion :=
                                     "vendor/version/revision" |} ] |};
                       sensorType := UNDER_DISPLAY_OPTICAL;
                       sensorLocations :=
                         [ {| sensorLocationX := 540; sensorLocationY := 2163;
                              sensorRadius := 118 |} ];
                       supportsNavigationGestures := false;
                       supportsDetectInteraction := false;
                       halHandlesDisplayTouches := false;
                       halControlsIllumination := false;
                       touchDetectionParameters := None |} ])).
    vm_compute. reflexivity.
  - apply (proj2 getSensorProps_read_only env_goodix env_goodix 0 0
             (world_constructed env_goodix) (world_session_open env_goodix)
             (with_udfps (Some sample_factory)
                (Some {| handler_addr := 8200 |})
                (loaded (Some dev_goodix) UNDER_DISPLAY_OPTICAL
                   member_initializers))
             (with_mSession (Some 0)
                (with_udfps (Some sample_factory)
                   (Some {| handler_addr := 8200 |})
                   (loaded (Some dev_goodix) UNDER_DISPLAY_OPTICAL
                      member_initializers))));
      vm_compute; reflexivity.
Defined.

(** C7: neither remote operation ever returns a status other than OK: a
    completed [getSensorProps] and a completed [createSession] return OK.
    [getSensorProps] completes, with OK, on every object, whatever its device
    and whatever the properties; [createSession] completes, with OK, whenever
    its [CHECK] holds, whatever the device. *)
Theorem remote_operations_return_ok :
  (forall env this w st out w',
      getSensorProps env this w = Done (st, out) w' -> st = ok) /\
  (forall this sensorId userId cb w st out w',
      createSession this sensorId userId cb w = Done (st, out) w' ->
      st = ok) /\
  (forall env this w fp,
      objects w !! this = Some fp ->
      exists out, getSensorProps env this w = Done (ok, out) w) /\
  (forall this sensorId userId cb w fp,
      objects w !! this = Some fp ->
      null_or_closed w fp ->
      exists out w',
        createSession this sensorId userId cb w = Done (ok, out) w').
Proof.
  repeat split.
  - intros env this w st out w'. unfold getSensorProps, bind, deref, ret.
    destruct (objects w !! this); [|discriminate]. by intros [= <- _ _].
  - intros this sensorId userId cb w st out w' Hrun.
    apply createSession_Done in Hrun as (fp & _ & _ & Hr & _). congruence.
  - intros env this w fp Hfp.
    destruct (getSensorProps_total env this fp w Hfp) as [p Hp]. eauto.
  - intros this sensorId userId cb w fp Hfp Hcheck.
    rewrite (createSession_run _ _ _ _ fp) by done. eauto.
Qed.

Lemma remote_operations_return_ok_witness :
  mDevice (with_udfps None None member_initializers) = None /\
  properties env_old = ∅ /\
  (exists out,
      getSensorProps env_old 0 (world_constructed env_old) =
        Done (ok, out) (world_constructed env_old)) /\
  (exists out w',
      createSession 0 0 10 (sample_cb 100) (world_constructed env_old) =
        Done (ok, out) w').
Proof.
  split; [reflexivity|]. split; [reflexivity|]. split.
  - apply (proj1 (proj2 (proj2 remote_operations_return_ok)) env_old 0
             (world_constructed env_old)
             (with_udfps None None member_initializers)).
    vm_compute. reflexivity.
  - apply (proj2 (proj2 (proj2 remote_operations_return_ok)) 0 0%Z 10%Z
             (sample_cb 100) (world_constructed env_old)
             (with_udfps None None member_initializers)).
    + vm_compute. reflexivity.
    + left. reflexivity.
Defined.

(** ** notify *)

(** C8: the callback drops the message, leaving the world as it was, when no
    instance is recorded, when the session pointer of the recorded instance
    is null, and when the session it refers to is closed; when it refers to
    a session that is not closed, that session receives the message.  A call
    that changed anything was made with a recorded instance whose session
    pointer refers to a session that is not closed. *)
Theorem notify_drops_or_forwards (msg : fingerprint_msg_t) (w : World) :
  (sInstance w = None -> notify msg w = Done tt w) /\
  (forall a fp,
      sInstance w = Some a -> objects w !! a = Some fp ->
      mSession fp = None ->
      notify msg w = Done tt w) /\
  (forall a fp s ss,
      sInstance w = Some a -> objects w !! a = Some fp ->
      mSession fp = Some s -> sessions w !! s = Some ss ->
      sess_closed ss = true ->
      notify msg w = Done tt w) /\
  (forall a fp s ss,
      sInstance w = Some a -> objects w !! a = Some fp ->
      mSession fp = Some s -> sessions w !! s = Some ss ->
      sess_closed ss = false ->
      notify msg w = Done tt (with_session s (notified msg ss) w)) /\
  (forall w',
      notify msg w = Done tt w' -> w' <> w ->
      exists a fp s,
        sInstance w = Some a /\ objects w !! a = Some fp /\
        has_open_session w fp s).
Proof.
  split; [|split; [|split; [|split]]].
  - intros Hi. unfold notify, bind, get_sInstance, ret. by rewrite Hi.
  - intros a fp Hi Hfp Hs.
    unfold notify, bind, get_sInstance, deref, ret. by rewrite Hi, Hfp, Hs.
  - intros a fp s ss Hi Hfp Hs Hss Hcl.
    unfold notify, Session_isClosed, get_sInstance, deref, deref_session,
      bind, ret.
    rewrite Hi, Hfp, Hs; cbv beta iota. by rewrite Hss, Hcl.
  - intros a fp s ss. apply notify_forwards.
  - intros w' Hrun Hne.
    apply notify_Done in Hrun
      as [->|(a & fp & s & ss & Hi & Hfp & Hs & Hss & Hcl & _)]; [done|].
    exists a, fp, s. unfold has_open_session. eauto 10.
Qed.

Lemma notify_drops_or_forwards_witness :
  notify sample_msg init_world = Done tt init_world /\
  notify sample_msg (world_constructed env_goodix) =
    Done tt (world_constructed env_goodix) /\
  notify sample_msg (world_session_closed env_goodix) =
    Done tt (world_session_closed env_goodix) /\
  notify sample_msg (world_session_open env_goodix) =
    Done tt (with_session 0
               (notified sample_msg
                  (created_session 0
                     (with_udfps (Some sample_factory)
                        (Some {| handler_addr := 8200 |})
                        (loaded (Some dev_goodix) UNDER_DISPLAY_OPTICAL
                           member_initializers))
                     10 (sample_cb 100)))
               (world_session_open env_goodix)).
Proof.
  pose (fp := with_udfps (Some sample_factory) (Some {| handler_addr := 8200 |})
                (loaded (Some dev_goodix) UNDER_DISPLAY_OPTICAL
                   member_initializers)).
  split; [|split; [|split]].
  - apply (proj1 (notify_drops_or_forwards sample_msg init_world)).
    reflexivity.
  - apply (proj1 (proj2 (notify_drops_or_forwards sample_msg
                           (world_constructed env_goodix))) 0 fp);
      vm_compute; reflexivity.
  - apply (proj1 (proj2 (proj2 (notify_drops_or_forwards sample_msg
                                  (world_session_closed env_goodix))))
             0 (with_mSession (Some 0) fp) 0
             (closed (created_session 0 fp 10 (sample_cb 100))));
      vm_compute; reflexivity.
  - apply (proj1 (proj2 (proj2 (proj2 (notify_drops_or_forwards sample_msg
                                         (world_session_open env_goodix)))))
             0 (with_mSession (Some 0) fp) 0
             (created_session 0 fp 10 (sample_cb 100)));
      vm_compute; reflexivity.
Defined.

(** ** createSession *)

(** C5, the claim as stated fails: on the service constructed in
    [env_goodix], on which user 10 has a session that is not closed, a call
    of [createSession] for user 11 aborts; it constructs no session and
    returns no status. *)
Lemma createSession_every_call_counterexample :
  reachable env_goodix (world_session_open env_goodix) /\
  is_Some (objects (world_session_open env_goodix) !! 0) /\
  createSession 0 0 11 (sample_cb 200) (world_session_open env_goodix) =
    Abort (world_session_open env_goodix) /\
  ~ (exists r w',
        createSession 0 0 11 (sample_cb 200) (world_session_open env_goodix) =
          Done r w').
Proof.
  assert (Habort :
    createSession 0 0 11 (sample_cb 200) (world_session_open env_goodix) =
      Abort (world_session_open env_goodix)) by (vm_compute; reflexivity).
  split; [apply reachable_session_open_goodix|].
  split; [vm_compute; eauto|]. split; [exact Habort|].
  intros (r & w' & Hrun). rewrite Habort in Hrun. discriminate.
Qed.

(** C5, amended: a call of [createSession] with user id [userId] and callback
    [cb], made on an object whose session pointer is null or refers to a
    closed session, constructs a new session bound to the device, the UDFPS
    handler and the lockout tracker of the object, to [userId] and to [cb],
    stores it as the session pointer of the object, writes that same session
    through [out], links it to the death of the binder of [cb], and returns
    OK.  A call made on an object whose session pointer refers to a session
    that is not closed aborts, in the world as it was. *)
Theorem createSession_creates_session (this : nat) (sensorId userId : Z)
    (cb : ISessionCallback) (w : World) (fp : Fingerprint) :
  objects w !! this = Some fp ->
  (null_or_closed w fp ->
   exists new w' fp' ss,
     createSession this sensorId userId cb w = Done (ok, Some new) w' /\
     sessions w !! new = None /\
     sessions w' !! new = Some ss /\
     objects w' !! this = Some fp' /\
     mSession fp' = Some new /\
     sess_device ss = mDevice fp /\
     sess_udfpsHandler ss = mUdfpsHandler fp /\
     sess_userId ss = userId /\
     sess_cb ss = cb /\
     sess_lockoutTracker ss = this /\
     sess_linkedToDeath ss = [asBinder cb]) /\
  (forall s, has_open_session w fp s ->
             createSession this sensorId userId cb w = Abort w).
Proof.
  intros Hfp. split.
  - intros Hcheck.
    exists (length (sessions w)), (after_createSession this fp userId cb w),
      (with_mSession (Some (length (sessions w))) fp),
      (created_session this fp userId cb).
    split; [by apply createSession_run|].
    split; [by apply lookup_ge_None_2|].
    split; [apply lookup_fresh|].
    split; [|done]. simpl. apply list_lookup_insert_eq. by eapply lookup_lt_Some.
  - intros s Hopen. by eapply createSession_abort.
Qed.

Lemma createSession_creates_session_witness :
  (exists new w' fp' ss,
      createSession 0 0 11 (sample_cb 200) (world_session_closed env_goodix) =
        Done (ok, Some new) w' /\
      sessions (world_session_closed env_goodix) !! new = None /\
      sessions w' !! new = Some ss /\
      objects w' !! 0 = Some fp' /\
      mSession fp' = Some new /\
      sess_device ss = Some dev_goodix /\
      sess_udfpsHandler ss = Some {| handler_addr := 8200 |} /\
      sess_userId ss = 11%Z /\
      sess_cb ss = sample_cb 200 /\
      sess_lockoutTracker ss = 0 /\
      sess_linkedToDeath ss = [201%Z]) /\
  createSession 0 0 11 (sample_cb 200) (world_session_open env_goodix) =
    Abort (world_session_open env_goodix).
Proof.
  pose (fp := with_udfps (Some sample_factory) (Some {| handler_addr := 8200 |})
                (loaded (Some dev_goodix) UNDER_DISPLAY_OPTICAL
                   member_initializers)).
  split.
  - apply (proj1 (createSession_creates_session 0 0 11 (sample_cb 200)
                    (world_session_closed env_goodix)
                    (with_mSession (Some 0) fp) ltac:(vm_compute; reflexivity))).
    right. exists 0, (closed (created_session 0 fp 10 (sample_cb 100))).
    repeat split; vm_compute; reflexivity.
  - apply (proj2 (createSession_creates_session 0 0 11 (sample_cb 200)
                    (world_session_open env_goodix)
                    (with_mSession (Some 0) fp) ltac:(vm_compute; reflexivity))
             0).
    exists (created_session 0 fp 10 (sample_cb 100)).
    repeat split; vm_compute; reflexivity.
Defined.

(** ** The session pointer *)

(** The body of the destructor assigns to [mDevice] only. *)
Lemma Fingerprint_dtor_Done (this : nat) (w w' : World) :
  Fingerprint_dtor this w = Done tt w' ->
  forall a, mSession <$> objects w' !! a = mSession <$> objects w !! a.
Proof.
  unfold Fingerprint_dtor. intros Hrun a.
  apply bind_Done in Hrun as (fp & w0 & Hderef & Hrun).
  unfold deref in Hderef.
  destruct (objects w !! this) as [fp0|]; [|discriminate].
  injection Hderef as <- <-.
  apply bind_Done in Hrun as ([] & w1 & Hdestroy & Hrun).
  assert (Hw1 : objects w1 = objects w).
  { destruct (mUdfpsHandler fp0); [|by injection Hdestroy as <-].
    destruct (mUdfpsHandlerFactory fp0); [|discriminate].
    by injection Hdestroy as <-. }
  apply bind_Done in Hrun as (fp1 & w2 & Hderef & Hrun).
  unfold deref in Hderef. rewrite Hw1 in Hderef.
  destruct (objects w !! this) as [fp2|] eqn:Hfp2; [|discriminate].
  injection Hderef as <- <-.
  destruct (mDevice fp2) as [device|];
    [|injection Hrun as <-; by rewrite Hw1].
  apply bind_Done in Hrun as ([] & w3 & Hemit & Hrun).
  injection Hemit as <-.
  destruct (negb (0 =? close device)%Z);
    [injection Hrun as <-; simpl; by rewrite Hw1|].
  apply modify_Done in Hrun as (fp3 & Hfp3 & ->). simpl in *.
  rewrite Hw1 in *.
  destruct (decide (this = a)) as [<-|Hne].
  - rewrite list_lookup_insert_eq by (by eapply lookup_lt_Some).
    rewrite Hfp3. done.
  - by rewrite list_lookup_insert_ne.
Qed.

(** C6: in every world of a run, a session that is not closed is the one its
    service's session pointer refers to, so a service has at most one session
    that is not closed.  [createSession] completes only when the session
    pointer is null or refers to a closed session, and aborts when it refers
    to a session that is not closed; after it, the session pointer refers to
    the session just created and the pointers of the other objects are as
    they were.  [getSensorProps], [notify], the constructor and the body of
    the destructor change the session pointer of no existing object, and a
    constructed object starts with a null one. *)
Theorem one_session_pointer (env : Env) :
  (forall w,
      reachable env w ->
      open_sessions_held w /\
      (forall s1 s2 ss1 ss2,
          sessions w !! s1 = Some ss1 -> sessions w !! s2 = Some ss2 ->
          sess_closed ss1 = false -> sess_closed ss2 = false ->
          sess_lockoutTracker ss1 = sess_lockoutTracker ss2 ->
          s1 = s2) /\
      (length (objects w) <= 1 ->
       forall s1 s2 ss1 ss2,
         sessions w !! s1 = Some ss1 -> sessions w !! s2 = Some ss2 ->
         sess_closed ss1 = false -> sess_closed ss2 = false ->
         s1 = s2)) /\
  (forall this sensorId userId cb w fp,
      objects w !! this = Some fp ->
      (null_or_closed w fp ->
       exists r w', createSession this sensorId userId cb w = Done r w') /\
      (forall s, has_open_session w fp s ->
                 createSession this sensorId userId cb w = Abort w)) /\
  (forall this sensorId userId cb w r w',
      createSession this sensorId userId cb w = Done r w' ->
      exists fp fp',
        objects w !! this = Some fp /\
        null_or_closed w fp /\
        objects w' !! this = Some fp' /\
        mSession fp' = Some (length (sessions w)) /\
        sessions w !! length (sessions w) = None /\
        is_Some (sessions w' !! length (sessions w)) /\
        forall a, a <> this -> objects w' !! a = objects w !! a) /\
  (forall this w r w',
      getSensorProps env this w = Done r w' ->
      forall a, mSession <$> objects w' !! a = mSession <$> objects w !! a) /\
  (forall msg w w',
      notify msg w = Done tt w' ->
      forall a, mSession <$> objects w' !! a = mSession <$> objects w !! a) /\
  (forall w this w',
      Fingerprint_ctor env w = Done this w' ->
      (forall a fp, objects w !! a = Some fp -> objects w' !! a = Some fp) /\
      exists fp, objects w' !! this = Some fp /\ mSession fp = None) /\
  (forall this w w',
      Fingerprint_dtor this w = Done tt w' ->
      forall a, mSession <$> objects w' !! a = mSession <$> objects w !! a).
Proof.
  split; [|split; [|split; [|split; [|split; [|split]]]]].
  - intros w Hreach. apply reachable_invariants in Hreach as [_ Hheld].
    assert (Hone : forall s1 s2 ss1 ss2,
               sessions w !! s1 = Some ss1 -> sessions w !! s2 = Some ss2 ->
               sess_closed ss1 = false -> sess_closed ss2 = false ->
               sess_lockoutTracker ss1 = sess_lockoutTracker ss2 ->
               s1 = s2).
    { intros s1 s2 ss1 ss2 H1 H2 Hc1 Hc2 Hown.
      destruct (Hheld _ _ H1 Hc1) as (fp1 & Hfp1 & Hp1).
      destruct (Hheld _ _ H2 Hc2) as (fp2 & Hfp2 & Hp2).
      congruence. }
    split; [done|]. split; [done|].
    intros Hlen s1 s2 ss1 ss2 H1 H2 Hc1 Hc2.
    apply (Hone s1 s2 ss1 ss2); try done.
    destruct (Hheld _ _ H1 Hc1) as (fp1 & Hfp1 & _).
    destruct (Hheld _ _ H2 Hc2) as (fp2 & Hfp2 & _).
    apply lookup_lt_Some in Hfp1, Hfp2. lia.
  - intros this sensorId userId cb w fp Hfp. split.
    + intros Hcheck. rewrite (createSession_run _ _ _ _ fp) by done. eauto.
    + intros s Hopen. by eapply createSession_abort.
  - intros this sensorId userId cb w r w' Hrun.
    apply createSession_Done in Hrun as (fp & Hfp & Hcheck & _ & ->).
    exists fp, (with_mSession (Some (length (sessions w))) fp).
    split; [done|]. split; [done|].
    split; [simpl; apply list_lookup_insert_eq; by eapply lookup_lt_Some|].
    split; [done|]. split; [by apply lookup_ge_None_2|].
    split; [simpl; rewrite lookup_fresh; eauto|].
    intros a Hne. simpl. by apply list_lookup_insert_ne.
  - intros this w r w' Hrun a.
    by apply getSensorProps_Done in Hrun as [-> _].
  - intros msg w w' Hrun a.
    by apply notify_Done in Hrun
      as [->|(? & ? & ? & ? & _ & _ & _ & _ & _ & ->)].
  - intros w this w' Hrun.
    apply ctor_Done in Hrun as (-> & tr & d & t & f & h & ->). simpl. split.
    + intros a fp Hfp. by apply lookup_app_l_Some.
    + eexists. split; [apply lookup_fresh|done].
  - intros this w w'. apply Fingerprint_dtor_Done.
Qed.

Lemma one_session_pointer_witness :
  open_sessions_held (world_session_open env_goodix) /\
  (exists r w',
      createSession 0 0 10 (sample_cb 100) (world_constructed env_goodix) =
        Done r w') /\
  createSession 0 0 11 (sample_cb 200) (world_session_open env_goodix) =
    Abort (world_session_open env_goodix).
Proof.
  pose (fp := with_udfps (Some sample_factory) (Some {| handler_addr := 8200 |})
                (loaded (Some dev_goodix) UNDER_DISPLAY_OPTICAL
                   member_initializers)).
  split; [|split].
  - apply (proj1 (one_session_pointer env_goodix)
             (world_session_open env_goodix)).
    apply reachable_session_open_goodix.
  - apply (proj1 (proj1 (proj2 (one_session_pointer env_goodix))
                    0 0%Z 10%Z (sample_cb 100) (world_constructed env_goodix)
                    fp ltac:(vm_compute; reflexivity))).
    left. reflexivity.
  - apply (proj2 (proj1 (proj2 (one_session_pointer env_goodix))
                    0 0%Z 11%Z (sample_cb 200) (world_session_open env_goodix)
                    (with_mSession (Some 0) fp) ltac:(vm_compute; reflexivity))
             0).
    exists (created_session 0 fp 10 (sample_cb 100)).
    repeat split; vm_compute; reflexivity.
Defined.


(** * Further properties of the code *)

(** ** openHal: the paths to its results *)

(** What a successful run of [openHal] has found in the environment. *)
Lemma openHal_answer_device (env : Env) (id : string) (cls : option string)
    (d : fingerprint_device_t) (tr : list event) :
  openHal_answer env id cls = Some (Some d, tr) ->
  exists module open_fn,
    hw_get_module_by_class env id cls = (0%Z, Some module) /\
    open (methods module) = Some open_fn /\
    open_fn None = (0%Z, Some d) /\
    version d = kVersion /\
    set_notify d Fingerprint_notify = 0%Z /\
    tr = [ev_set_notify (dev_addr d) Fingerprint_notify 0;
          ev_open (module_addr module); ev_hw_get_module_by_class id cls].
Proof.
  unfold openHal_answer, openHal, bind, emit, ret, fault.
  destruct (hw_get_module_by_class env id cls) as [err hw_mdl].
  destruct (0 =? err)%Z eqn:Herr; cbn [negb]; [|discriminate].
  destruct hw_mdl as [module|]; [|discriminate].
  destruct (open (methods module)) as [open_fn|] eqn:Hopen; [|discriminate].
  destruct (open_fn None) as [err' device] eqn:Hdev.
  destruct (0 =? err')%Z eqn:Herr'; cbn [negb]; [|discriminate].
  destruct device as [device|]; [|discriminate].
  destruct (kVersion =? version device)%Z eqn:Hver; cbn [negb];
    [|discriminate].
  destruct (0 =? set_notify device Fingerprint_notify)%Z eqn:Hset;
    cbn [negb]; [|discriminate].
  apply Z.eqb_eq in Herr, Herr', Hver, Hset. subst err err'.
  intros [= <- <-]. exists module, open_fn. rewrite <- Hset. by repeat split.
Qed.

(** The calls of every run of [openHal] have one of the three shapes. *)
Lemma openHal_answer_calls (env : Env) (id : string) (cls : option string)
    (r : option fingerprint_device_t) (tr : list event) :
  openHal_answer env id cls = Some (r, tr) -> openHal_calls id cls tr.
Proof.
  unfold openHal_answer, openHal, openHal_calls, bind, emit, ret, fault.
  openHal_cases env id cls
    ltac:(first [discriminate | intros [= <- <-]; by eauto]).
  destruct (negb (kVersion =? version device)%Z);
    [intros [= <- <-]; by eauto|].
  destruct (negb (0 =? set_notify device Fingerprint_notify)%Z);
    intros [= <- <-]; right; right; eauto.
Qed.

Lemma openHal_calls_no_udfps (id : string) (cls : option string)
    (tr : list event) :
  openHal_calls id cls tr -> List.filter is_udfps_call tr = [].
Proof. by intros [->|[[m ->]|(m & d & e & ->)]]. Qed.

(** X1: [openHal] returns a device exactly when the module lookup answers 0
    with a module, the module has an [open] that answers 0 and stores a
    device, the version of the device is [kVersion] and its [set_notify]
    answers 0 to [Fingerprint::notify]; the device returned is the one
    [open] stored, and the calls made are these three. *)
Theorem openHal_succeeds_iff (env : Env) (id : string) (cls : option string)
    (w w' : World) (d : fingerprint_device_t) :
  openHal env id cls w = Done (Some d) w' <->
  exists module open_fn,
    hw_get_module_by_class env id cls = (0%Z, Some module) /\
    open (methods module) = Some open_fn /\
    open_fn None = (0%Z, Some d) /\
    version d = kVersion /\
    set_notify d Fingerprint_notify = 0%Z /\
    w' = after_calls [ev_set_notify (dev_addr d) Fingerprint_notify 0;
                      ev_open (module_addr module);
                      ev_hw_get_module_by_class id cls] w.
Proof.
  split.
  - rewrite openHal_run.
    destruct (openHal_answer env id cls) as [[r tr]|] eqn:Hans; [|discriminate].
    intros [= -> <-].
    apply openHal_answer_device in Hans
      as (module & open_fn & Hmod & Hopen & Hdev & Hver & Hset & ->).
    by exists module, open_fn.
  - intros (module & open_fn & Hmod & Hopen & Hdev & Hver & Hset & ->).
    unfold openHal, bind, emit, ret. rewrite Hmod.
    change (negb (0 =? 0)%Z) with false; cbv beta iota.
    rewrite Hopen, Hdev; cbv beta iota.
    rewrite Hver, Z.eqb_refl, Hset. reflexivity.
Qed.

Lemma openHal_succeeds_iff_witness :
  openHal env_goodix "fingerprint.goodix_fod" None init_world =
    Done (Some dev_goodix)
      (after_calls [ev_set_notify 4096 Fingerprint_notify 0; ev_open 64;
                    ev_hw_get_module_by_class "fingerprint.goodix_fod" None]
         init_world).
Proof.
  apply (proj2 (openHal_succeeds_iff env_goodix "fingerprint.goodix_fod" None
                  init_world _ dev_goodix)).
  exists (sample_module 64 dev_goodix), (fun _ => (0%Z, Some dev_goodix)).
  repeat split; vm_compute; reflexivity.
Defined.

(** X2: the early returns of [openHal].  It returns the null pointer after
    the module lookup alone when the lookup answers an error, stores no
    module, or the module has no [open]; and after the lookup and [open]
    when [open] answers an error.  In none of these cases is [set_notify]
    called. *)
Theorem openHal_early_returns (env : Env) (id : string) (cls : option string)
    (w : World) :
  (fst (hw_get_module_by_class env id cls) <> 0%Z ->
   openHal env id cls w =
     Done None (after_calls [ev_hw_get_module_by_class id cls] w)) /\
  (hw_get_module_by_class env id cls = (0%Z, None) ->
   openHal env id cls w =
     Done None (after_calls [ev_hw_get_module_by_class id cls] w)) /\
  (forall module,
      hw_get_module_by_class env id cls = (0%Z, Some module) ->
      open (methods module) = None ->
      openHal env id cls w =
        Done None (after_calls [ev_hw_get_module_by_class id cls] w)) /\
  (forall module open_fn,
      hw_get_module_by_class env id cls = (0%Z, Some module) ->
      open (methods module) = Some open_fn ->
      fst (open_fn None) <> 0%Z ->
      openHal env id cls w =
        Done None (after_calls [ev_open (module_addr module);
                                ev_hw_get_module_by_class id cls] w)).
Proof.
  unfold openHal, bind, emit, ret. split; [|split; [|split]].
  - destruct (hw_get_module_by_class env id cls) as [err hw_mdl]. cbn [fst].
    intros Herr. apply not_eq_sym, Z.eqb_neq in Herr. by rewrite Herr.
  - by intros ->.
  - intros module -> Hopen.
    change (negb (0 =? 0)%Z) with false; cbv beta iota. by rewrite Hopen.
  - intros module open_fn -> Hopen.
    change (negb (0 =? 0)%Z) with false; cbv beta iota. rewrite Hopen.
    destruct (open_fn None) as [err device]. cbn [fst].
    intros Herr. apply not_eq_sym, Z.eqb_neq in Herr. by rewrite Herr.
Qed.

Lemma openHal_early_returns_witness :
  openHal env_failing "absent" None init_world =
    Done None (after_calls [ev_hw_get_module_by_class "absent" None]
                 init_world) /\
  openHal env_failing "null" None init_world =
    Done None (after_calls [ev_hw_get_module_by_class "null" None]
                 init_world) /\
  openHal env_failing "noopen" None init_world =
    Done None (after_calls [ev_hw_get_module_by_class "noopen" None]
                 init_world) /\
  openHal env_failing "openfails" None init_world =
    Done None (after_calls [ev_open 448;
                            ev_hw_get_module_by_class "openfails" None]
                 init_world).
Proof.
  split; [|split; [|split]].
  - apply (proj1 (openHal_early_returns env_failing "absent" None init_world)).
    vm_compute. discriminate.
  - apply (proj1 (proj2 (openHal_early_returns env_failing "null" None
                           init_world))).
    vm_compute. reflexivity.
  - apply (proj1 (proj2 (proj2 (openHal_early_returns env_failing "noopen" None
                                  init_world)))
             {| module_addr := 384; methods := {| open := None |} |});
      vm_compute; reflexivity.
  - apply (proj2 (proj2 (proj2 (openHal_early_returns env_failing "openfails"
                                  None init_world)))
             {| module_addr := 448;
                methods := {| open := Some (fun _ => ((-12)%Z, None)) |} |}
             (fun _ => ((-12)%Z, None)));
      [vm_compute; reflexivity | reflexivity | vm_compute; discriminate].
Defined.

(** X3: [openHal] does not check the device that [open] stored: when [open]
    answers 0 and has stored no device, reading the version dereferences the
    null pointer. *)
Theorem openHal_unchecked_device (env : Env) (id : string)
    (cls : option string) (w : World) (module : hw_module_t)
    (open_fn : option string -> Z * option fingerprint_device_t) :
  hw_get_module_by_class env id cls = (0%Z, Some module) ->
  open (methods module) = Some open_fn ->
  open_fn None = (0%Z, None) ->
  openHal env id cls w = Fault.
Proof.
  intros Hmod Hopen Hdev. unfold openHal, bind, emit, ret, fault. rewrite Hmod.
  change (negb (0 =? 0)%Z) with false; cbv beta iota.
  by rewrite Hopen, Hdev.
Qed.

Lemma openHal_unchecked_device_witness :
  openHal env_failing "nodevice" None init_world = Fault.
Proof.
  apply (openHal_unchecked_device env_failing "nodevice" None init_world
           {| module_addr := 512;
              methods := {| open := Some (fun _ => (0%Z, None)) |} |}
           (fun _ => (0%Z, None)));
    vm_compute; reflexivity.
Defined.

(** X4: [openHal] never aborts, and a completed run changes nothing but the
    trace: the static pointer, the objects and the sessions are as they were.
    The calls it has made are the module lookup, then at most one [open],
    then at most one [set_notify]: a device that it opened and rejected is
    not closed. *)
Theorem openHal_frame (env : Env) (id : string) (cls : option string)
    (w : World) :
  (forall w', openHal env id cls w <> Abort w') /\
  (forall r w',
      openHal env id cls w = Done r w' ->
      sInstance w' = sInstance w /\ objects w' = objects w /\
      sessions w' = sessions w /\
      exists tr, trace w' = tr ++ trace w /\ openHal_calls id cls tr).
Proof.
  rewrite openHal_run.
  destruct (openHal_answer env id cls) as [[r0 tr]|] eqn:Hans;
    split; try discriminate.
  intros r w' [= <- <-]. repeat split.
  exists tr. split; [done|]. by eapply openHal_answer_calls.
Qed.

Lemma openHal_frame_witness :
  sInstance (after_calls [ev_open 192; ev_hw_get_module_by_class "fingerprint" None]
               (world_session_open env_goodix)) =
    sInstance (world_session_open env_goodix) /\
  objects (after_calls [ev_open 192; ev_hw_get_module_by_class "fingerprint" None]
             (world_session_open env_goodix)) =
    objects (world_session_open env_goodix) /\
  sessions (after_calls [ev_open 192; ev_hw_get_module_by_class "fingerprint" None]
              (world_session_open env_goodix)) =
    sessions (world_session_open env_goodix) /\
  exists tr,
    trace (after_calls [ev_open 192; ev_hw_get_module_by_class "fingerprint" None]
             (world_session_open env_goodix)) =
      tr ++ trace (world_session_open env_goodix) /\
    openHal_calls "fingerprint" None tr.
Proof.
  apply (proj2 (openHal_frame env_old "fingerprint" None
                  (world_session_open env_goodix)) None).
  vm_compute. reflexivity.
Defined.

(** ** The constructor: what it leaves in the object *)

Lemma kModules_sensor_type (l1 l2 : list fingerprint_hal_t)
    (m : fingerprint_hal_t) :
  kModules = l1 ++ m :: l2 -> sensor_type m = UNDER_DISPLAY_OPTICAL.
Proof.
  intros Hk.
  assert (Hin : m ∈ kModules) by (rewrite Hk; set_solver).
  unfold kModules in Hin. rewrite !elem_of_cons in Hin.
  destruct Hin as [->|[->|Hin]]; [done..|by apply elem_of_nil in Hin].
Qed.

Section ConstructorState.
Context (env : Env).

(** A completed loop has found no entry that opens, or stopped at the first
    one that does; it has made no call of the UDFPS part. *)
Lemma load_modules_Done_cases (mods : list fingerprint_hal_t) (this : nat)
    (fp : Fingerprint) (w w' : World) :
  objects w !! this = Some fp ->
  mDevice fp = None ->
  load_modules env this mods w = Done tt w' ->
  exists tr,
    List.filter is_udfps_call tr = [] /\
    ((Forall (fun m => openHal_returns env m None) mods /\
      w' = with_object this fp (after_calls tr w)) \/
     (exists l1 m l2 d,
         mods = l1 ++ m :: l2 /\
         Forall (fun m' => openHal_returns env m' None) l1 /\
         openHal_returns env m (Some d) /\
         w' = with_object this (loaded (Some d) (sensor_type m) fp)
                (after_calls tr w))).
Proof.
  intros Hfp Hdev. revert w w' Hfp.
  induction mods as [|m rest IH]; intros w w' Hfp; simpl.
  - intros [= <-]. exists []. split; [done|]. left. split; [done|].
    by rewrite after_calls_nil, with_object_id.
  - unfold bind at 1. rewrite openHal_run.
    destruct (openHal_answer env (id_name m) (class_name m)) as [[r tr]|]
      eqn:Hans; [|discriminate].
    assert (Hret : openHal_returns env m r)
      by (apply openHal_returns_answer; eauto).
    assert (Htr : List.filter is_udfps_call tr = [])
      by (eapply openHal_calls_no_udfps, openHal_answer_calls, Hans).
    unfold set_mDevice. unfold bind at 1.
    rewrite (modify_run _ _ fp) by done.
    destruct r as [d|].
    + unfold set_mSensorType.
      erewrite modify_run by (by eapply with_object_lookup).
      intros [= <-]. rewrite with_object_twice.
      exists tr. split; [done|]. right. by exists [], m, rest, d.
    + assert (Hsame : loaded None (mSensorType fp) fp = fp)
        by (destruct fp; simpl in *; by subst).
      change (with_object this _ (after_calls tr w))
        with (with_object this (loaded None (mSensorType fp) fp)
                (after_calls tr w)).
      rewrite Hsame, with_object_id by done.
      intros Hrest. apply IH in Hrest as (tr' & Htr' & Hcases); [|done].
      exists (tr' ++ tr). split; [by rewrite List.filter_app, Htr', Htr|].
      rewrite <- after_calls_app.
      destruct Hcases as [[Hall ->]|(l1 & m' & l2 & d & -> & Hl1 & Hm' & ->)].
      * left. split; [by constructor|done].
      * right. exists (m :: l1), m', l2, d.
        split; [done|]. split; [by constructor|done].
Qed.

(** The UDFPS part of the constructor, as a function of the object it
    finds. *)
Lemma ctor_udfps_run_calls (this : nat) (fp : Fingerprint) (w : World) :
  objects w !! this = Some fp ->
  ctor_udfps env this w =
    Done tt
      (if is_under_display (mSensorType fp)
       then with_object this
              (with_udfps (getUdfpsHandlerFactory env)
                 match getUdfpsHandlerFactory env with
                 | Some factory => create factory
                 | None => mUdfpsHandler fp
                 end fp)
              (after_calls (udfps_calls env (dev_addr <$> mDevice fp)) w)
       else w).
Proof.
  intros Hfp. unfold ctor_udfps, udfps_calls. unfold bind at 1.
  unfold deref at 1. rewrite Hfp.
  destruct (is_under_display (mSensorType fp)); [|done].
  unfold bind at 1. rewrite emit_after_calls.
  unfold set_mUdfpsHandlerFactory. unfold bind at 1.
  rewrite (modify_run _ _ fp) by done.
  destruct (getUdfpsHandlerFactory env) as [factory|]; [|done].
  unfold bind at 1. rewrite emit_after_calls.
  unfold set_mUdfpsHandler. unfold bind at 1.
  erewrite modify_run by (by eapply with_object_lookup).
  destruct (create factory) as [handler|].
  - unfold bind at 1. unfold deref.
    erewrite with_object_lookup by (by eapply with_object_lookup).
    rewrite emit_after_calls.
    unfold with_object, after_calls; simpl.
    by rewrite list_insert_insert_eq.
  - unfold ret, with_object, after_calls; simpl.
    by rewrite list_insert_insert_eq.
Qed.

(** The world that a completed constructor leaves, with the state of the
    object it constructed and the calls it made. *)
Lemma ctor_Done_state (w w' : World) (this : nat) :
  Fingerprint_ctor env w = Done this w' ->
  this = length (objects w) /\
  exists fp tr,
    w' = {| sInstance := Some this;
            objects := objects w ++ [fp];
            sessions := sessions w;
            trace := match mDevice fp with
                     | Some d => udfps_calls env (Some (dev_addr d))
                     | None => []
                     end ++ tr ++ trace w |} /\
    List.filter is_udfps_call tr = [] /\
    mSession fp = None /\
    well_constructed env fp.
Proof.
  unfold Fingerprint_ctor. rewrite ctor_prologue.
  set (w1 := {| sInstance := _ |}).
  assert (H1 : objects w1 !! length (objects w) = Some member_initializers)
    by apply lookup_fresh.
  assert (Hstore : forall fp,
             <[length (objects w) := fp]> (objects w ++ [member_initializers])
             = objects w ++ [fp]).
  { intros fp. rewrite insert_app_r_alt by done. by rewrite Nat.sub_diag. }
  intros Hrun. apply bind_Done in Hrun as ([] & w2 & Hload & Hrun).
  apply bind_Done in Hrun as ([] & w3 & Hudfps & Hrun).
  injection Hrun as <- <-. split; [done|].
  apply (load_modules_Done_cases _ _ _ _ _ H1 eq_refl) in Hload
    as (tr & Htr & [[Hall ->]|(l1 & m & l2 & d & Hk & Hl1 & Hm & ->)]).
  - rewrite (ctor_udfps_run_calls _ member_initializers) in Hudfps
      by (by eapply with_object_lookup).
    injection Hudfps as <-.
    exists member_initializers, tr. split; [|by repeat split].
    unfold with_object, after_calls, w1; simpl. by rewrite Hstore.
  - rewrite (kModules_sensor_type _ _ _ Hk) in Hudfps.
    rewrite (ctor_udfps_run_calls _
               (loaded (Some d) UNDER_DISPLAY_OPTICAL member_initializers))
      in Hudfps by (by eapply with_object_lookup).
    injection Hudfps as <-.
    eexists (with_udfps _ _ (loaded (Some d) UNDER_DISPLAY_OPTICAL
                               member_initializers)), tr.
    split; [|split; [done|split; [done|]]].
    + unfold with_object, after_calls, w1; simpl.
      by rewrite list_insert_insert_eq, Hstore.
    + unfold well_constructed, udfps_handler; simpl.
      split; [done|]. split; [done|].
      split; [by destruct (getUdfpsHandlerFactory env)|by exists l1, m, l2].
Qed.

Lemma well_constructed_with_mSession (s : option nat) (fp : Fingerprint) :
  well_constructed env fp -> well_constructed env (with_mSession s fp).
Proof. done. Qed.

End ConstructorState.

(** ** Further invariants of the runs *)

Section RunInvariants.
Context (env : Env).

Lemma well_constructed_step (w w' : World) :
  step env w w' ->
  (forall a fp, objects w !! a = Some fp -> well_constructed env fp) ->
  forall a fp, objects w' !! a = Some fp -> well_constructed env fp.
Proof.
  intros Hstep Hinv a fp'.
  destruct Hstep as [w this w' Hrun|w this r w' Hrun
                    |w this sensorId userId cb r w' Hrun|w msg w' Hrun
                    |w s w' Hrun].
  - apply ctor_Done_state in Hrun as (-> & fp & tr & -> & _ & _ & Hwc). simpl.
    intros Hl. apply lookup_app_Some in Hl as [Hl|[_ Hl]]; [by eapply Hinv|].
    by apply list_lookup_singleton_Some in Hl as [_ <-].
  - apply getSensorProps_Done in Hrun as [-> _]. apply Hinv.
  - apply createSession_Done in Hrun as (fp & Hfp & _ & _ & ->). simpl.
    intros Hl. apply list_lookup_insert_Some in Hl as [(-> & <- & _)|[_ Hl]];
      [by apply well_constructed_with_mSession, (Hinv _ _ Hfp)|by eapply Hinv].
  - apply notify_Done in Hrun as [->|(? & ? & ? & ? & _ & _ & _ & _ & _ & ->)];
      apply Hinv.
  - apply Session_close_Done in Hrun as (ss & _ & ->). apply Hinv.
Qed.

Lemma pointers_valid_step (w w' : World) :
  step env w w' -> pointers_valid w -> pointers_valid w'.
Proof.
  intros Hstep [Hinst Hptr].
  destruct Hstep as [w this w' Hrun|w this r w' Hrun
                    |w this sensorId userId cb r w' Hrun|w msg w' Hrun
                    |w s w' Hrun].
  - apply ctor_Done_state in Hrun as (-> & fp & tr & -> & _ & Hnull & _).
    split; simpl.
    + rewrite length_app. simpl. lia.
    + intros a fp' s Hl Hs. apply lookup_app_Some in Hl as [Hl|[_ Hl]];
        [by eapply Hptr|].
      apply list_lookup_singleton_Some in Hl as [_ <-]. congruence.
  - by apply getSensorProps_Done in Hrun as [-> _].
  - apply createSession_Done in Hrun as (fp & Hfp & _ & _ & ->).
    split; simpl.
    + destruct (sInstance w); [by rewrite length_insert|].
      rewrite Hinst in Hfp. by rewrite lookup_nil in Hfp.
    + intros a fp' s Hl Hs.
      apply list_lookup_insert_Some in Hl as [(-> & <- & _)|[_ Hl]].
      * injection Hs as <-. eexists. split; [apply lookup_fresh|done].
      * destruct (Hptr _ _ _ Hl Hs) as (ss & Hss & Hown).
        exists ss. split; [by apply lookup_app_l_Some|done].
  - apply notify_Done in Hrun
      as [->|(a0 & fp0 & s0 & ss0 & _ & _ & _ & Hss0 & _ & ->)]; [done|].
    split; [done|]. simpl. intros a fp s Hl Hs.
    destruct (Hptr _ _ _ Hl Hs) as (ss & Hss & Hown).
    destruct (decide (s0 = s)) as [->|Hne].
    + exists (notified msg ss0). split.
      * apply list_lookup_insert_eq. by eapply lookup_lt_Some.
      * simpl. congruence.
    + exists ss. by rewrite list_lookup_insert_ne.
  - apply Session_close_Done in Hrun as (ss0 & Hss0 & ->).
    split; [done|]. simpl. intros a fp s' Hl Hs.
    destruct (Hptr _ _ _ Hl Hs) as (ss & Hss & Hown).
    destruct (decide (s = s')) as [->|Hne].
    + exists (closed ss0). split.
      * apply list_lookup_insert_eq. by eapply lookup_lt_Some.
      * simpl. congruence.
    + exists ss. by rewrite list_lookup_insert_ne.
Qed.

Lemma sessions_bound_step (w w' : World) :
  step env w w' -> sessions_bound w -> sessions_bound w'.
Proof.
  intros Hstep Hinv s' ss'.
  destruct Hstep as [w this w' Hrun|w this r w' Hrun
                    |w this sensorId userId cb r w' Hrun|w msg w' Hrun
                    |w s w' Hrun].
  - apply ctor_Done_state in Hrun as (-> & fp & tr & -> & _). simpl.
    intros Hs. destruct (Hinv _ _ Hs) as (Hlink & fp0 & Hfp0 & Hb).
    split; [done|]. exists fp0. split; [by apply lookup_app_l_Some|done].
  - apply getSensorProps_Done in Hrun as [-> _]. apply Hinv.
  - apply createSession_Done in Hrun as (fp & Hfp & _ & _ & ->). simpl.
    intros Hs. apply lookup_app_Some in Hs as [Hs|[_ Hs]].
    + destruct (Hinv _ _ Hs) as (Hlink & fp0 & Hfp0 & Hb).
      split; [done|].
      destruct (decide (this = sess_lockoutTracker ss')) as [->|Hne].
      * rewrite Hfp in Hfp0. injection Hfp0 as <-.
        exists (with_mSession (Some (length (sessions w))) fp). split; [|done].
        apply list_lookup_insert_eq. by eapply lookup_lt_Some.
      * exists fp0. by rewrite list_lookup_insert_ne.
    + apply list_lookup_singleton_Some in Hs as [_ <-]. simpl.
      split; [done|].
      exists (with_mSession (Some (length (sessions w))) fp). split; [|done].
      apply list_lookup_insert_eq. by eapply lookup_lt_Some.
  - apply notify_Done in Hrun
      as [->|(a0 & fp0 & s0 & ss0 & _ & _ & _ & Hss0 & _ & ->)];
      [apply Hinv|].
    simpl. intros Hs.
    apply list_lookup_insert_Some in Hs as [(-> & <- & _)|[_ Hs]];
      [apply (Hinv _ _ Hss0)|by apply (Hinv _ _ Hs)].
  - apply Session_close_Done in Hrun as (ss0 & Hss0 & ->). simpl.
    intros Hs.
    apply list_lookup_insert_Some in Hs as [(-> & <- & _)|[_ Hs]];
      [apply (Hinv _ _ Hss0)|by apply (Hinv _ _ Hs)].
Qed.

Lemma reachable_state (w : World) :
  reachable env w ->
  (forall a fp, objects w !! a = Some fp -> well_constructed env fp) /\
  pointers_valid w /\ sessions_bound w.
Proof.
  unfold reachable. revert w.
  apply (rtc_ind_r
           (fun w =>
              (forall a fp, objects w !! a = Some fp ->
                            well_constructed env fp) /\
              pointers_valid w /\ sessions_bound w)).
  - split; [|split; [split|]]; try done;
      intros ? ? **; match goal with H : _ !! _ = Some _ |- _ =>
                       simpl in H; by rewrite lookup_nil in H end.
  - intros w1 w2 _ Hstep (IH1 & IH2 & IH3).
    split; [by eapply well_constructed_step|].
    split; [by eapply pointers_valid_step|by eapply sessions_bound_step].
Qed.

End RunInvariants.

(** ** The constructor: further properties *)

Lemma openHal_returns_device (env : Env) (m : fingerprint_hal_t)
    (d : fingerprint_device_t) :
  openHal_returns env m (Some d) ->
  version d = kVersion /\ set_notify d Fingerprint_notify = 0%Z.
Proof.
  intros Hm. apply openHal_returns_answer in Hm as [tr Htr].
  apply openHal_answer_device in Htr as (_ & _ & _ & _ & _ & Hv & Hs & _).
  done.
Qed.

Lemma well_constructed_device (env : Env) (fp : Fingerprint)
    (d : fingerprint_device_t) :
  well_constructed env fp -> mDevice fp = Some d ->
  version d = kVersion /\ set_notify d Fingerprint_notify = 0%Z.
Proof.
  unfold well_constructed. intros Hwc Hd. rewrite Hd in Hwc.
  destruct Hwc as (_ & _ & _ & l1 & m & l2 & _ & _ & Hm).
  by eapply openHal_returns_device.
Qed.

Lemma load_modules_not_Abort (env : Env) (mods : list fingerprint_hal_t)
    (this : nat) (fp : Fingerprint) (w w' : World) :
  objects w !! this = Some fp ->
  load_modules env this mods w <> Abort w'.
Proof.
  revert fp w. induction mods as [|m rest IH]; intros fp w Hfp; simpl;
    [discriminate|].
  unfold bind at 1. rewrite openHal_run.
  destruct (openHal_answer env (id_name m) (class_name m)) as [[r tr]|];
    [|discriminate].
  unfold set_mDevice. unfold bind at 1. rewrite (modify_run _ _ fp) by done.
  destruct r as [d|].
  - unfold set_mSensorType.
    erewrite modify_run by (by eapply with_object_lookup). discriminate.
  - eapply IH. by eapply with_object_lookup.
Qed.

(** X5: the constructor never aborts.  When it completes, the static pointer
    refers to the object it constructed, also when no module opened; the
    sessions and the other objects are as they were; the object has a null
    session pointer and is in one of two states.  Either no entry of
    [kModules] opened: the device and the UDFPS factory and handler are null
    and the sensor type is UNKNOWN.  Or the object holds the device of the
    first entry that opened, of version [kVersion] and with the callback
    registered, the sensor type is UNDER_DISPLAY_OPTICAL, and the factory and
    the handler are those that the environment gave. *)
Theorem ctor_object_state (env : Env) (w : World) :
  (forall w', Fingerprint_ctor env w <> Abort w') /\
  (forall this w',
      Fingerprint_ctor env w = Done this w' ->
      this = length (objects w) /\
      sInstance w' = Some this /\
      sessions w' = sessions w /\
      exists fp,
        objects w' = objects w ++ [fp] /\
        mSession fp = None /\
        well_constructed env fp /\
        (forall d, mDevice fp = Some d ->
                   version d = kVersion /\
                   set_notify d Fingerprint_notify = 0%Z)).
Proof.
  split.
  - intros w'. unfold Fingerprint_ctor. rewrite ctor_prologue.
    set (w1 := {| sInstance := _ |}).
    assert (H1 : objects w1 !! length (objects w) = Some member_initializers)
      by apply lookup_fresh.
    unfold bind at 1.
    destruct (load_modules env (length (objects w)) kModules w1)
      as [[] w2|w2|] eqn:Hload;
      [|destruct (load_modules_not_Abort _ _ _ _ _ _ H1 Hload)|done].
    apply (load_modules_Done _ _ _ _ _ _ H1) in Hload as (tr & d & t & ->).
    unfold bind.
    erewrite ctor_udfps_run_calls by (by eapply with_object_lookup). done.
  - intros this w' Hrun.
    apply ctor_Done_state in Hrun as (-> & fp & tr & -> & _ & Hnull & Hwc).
    repeat split. exists fp. repeat split; try done;
      by eapply well_constructed_device.
Qed.

Lemma ctor_object_state_witness :
  0 = length (objects init_world) /\
  sInstance (world_constructed env_old) = Some 0 /\
  sessions (world_constructed env_old) = sessions init_world /\
  exists fp,
    objects (world_constructed env_old) = objects init_world ++ [fp] /\
    mSession fp = None /\
    well_constructed env_old fp /\
    (forall d, mDevice fp = Some d ->
               version d = kVersion /\ set_notify d Fingerprint_notify = 0%Z).
Proof.
  apply (proj2 (ctor_object_state env_old init_world) 0
           (world_constructed env_old)).
  vm_compute. reflexivity.
Defined.

(** X6: the calls of the UDFPS part of the constructor.  When no module
    opened, the constructor makes none of them.  When a device was opened,
    it asks for the handler factory once, after all the calls of the module
    loading; it calls [create] only on a factory that is not null, and
    [init] only on a handler that is not null, with the device it opened. *)
Theorem ctor_udfps_calls_made (env : Env) (w w' : World) (this : nat) :
  Fingerprint_ctor env w = Done this w' ->
  exists fp tr,
    objects w' !! this = Some fp /\
    List.filter is_udfps_call tr = [] /\
    trace w' = match mDevice fp with
               | Some d => udfps_calls env (Some (dev_addr d))
               | None => []
               end ++ tr ++ trace w.
Proof.
  intros Hrun.
  apply ctor_Done_state in Hrun as (-> & fp & tr & -> & Htr & _).
  exists fp, tr. split; [apply lookup_fresh|done].
Qed.

Lemma ctor_udfps_calls_made_witness :
  (exists fp tr,
      objects (world_constructed env_goodix) !! 0 = Some fp /\
      List.filter is_udfps_call tr = [] /\
      trace (world_constructed env_goodix) =
        match mDevice fp with
        | Some d => udfps_calls env_goodix (Some (dev_addr d))
        | None => []
        end ++ tr ++ trace init_world) /\
  udfps_calls env_goodix (Some 4096%Z) =
    [ev_init 8200 (Some 4096%Z); ev_create 8192; ev_getUdfpsHandlerFactory].
Proof.
  split; [|reflexivity].
  apply (ctor_udfps_calls_made env_goodix init_world
           (world_constructed env_goodix) 0).
  vm_compute. reflexivity.
Defined.

(** ** No null or dangling pointer in a run *)

Lemma reachable_two_instances_goodix :
  reachable env_goodix (world_two_instances env_goodix).
Proof.
  eapply rtc_r.
  - eapply rtc_r; [apply reachable_constructed_goodix|].
    apply (step_ctor _ _ 1 (exec (Fingerprint_ctor env_goodix)
                              (world_constructed env_goodix))).
    vm_compute. reflexivity.
  - apply (step_createSession _ _ 0 0%Z 10%Z (sample_cb 100) (ok, Some 0)).
    vm_compute. reflexivity.
Qed.

(** X7: in every world of a run, the callback completes: the static pointer
    is null or refers to an object, and the session pointer of that object
    is null or refers to a session. *)
Theorem notify_never_faults (env : Env) (w : World) (msg : fingerprint_msg_t) :
  reachable env w ->
  exists w', notify msg w = Done tt w'.
Proof.
  intros Hreach. apply reachable_state in Hreach as (_ & [Hinst Hptr] & _).
  destruct (sInstance w) as [a|] eqn:Hi;
    [|unfold notify, bind, get_sInstance, ret; rewrite Hi; eauto].
  destruct (lookup_lt_is_Some_2 (objects w) a) as [fp Hfp]; [lia|].
  destruct (mSession fp) as [s|] eqn:Hs;
    [|unfold notify, bind, get_sInstance, deref, ret;
      rewrite Hi, Hfp, Hs; eauto].
  destruct (Hptr _ _ _ Hfp Hs) as (ss & Hss & _).
  destruct (sess_closed ss) eqn:Hcl.
  - unfold notify, Session_isClosed, get_sInstance, deref, deref_session,
      bind, ret.
    rewrite Hi, Hfp, Hs; cbv beta iota. rewrite Hss, Hcl. eauto.
  - rewrite (notify_forwards _ _ a s fp ss) by done. eauto.
Qed.

Lemma notify_never_faults_witness :
  exists w', notify sample_msg (world_session_open env_goodix) = Done tt w'.
Proof.
  apply (notify_never_faults env_goodix (world_session_open env_goodix)
           sample_msg).
  apply reachable_session_open_goodix.
Defined.



(** X9: the callback serves the most recent instance only.  In every world
    of a run the static pointer refers to the object constructed last, and
    a callback leaves the sessions of every other object as they were:
    once a second service object is constructed, a session of the first one
    that is not closed receives no message. *)
Theorem notify_serves_latest_instance (env : Env) (w : World) :
  reachable env w ->
  match sInstance w with
  | Some a => S a = length (objects w)
  | None => objects w = []
  end /\
  forall msg w',
    notify msg w = Done tt w' ->
    forall s ss,
      sessions w !! s = Some ss ->
      S (sess_lockoutTracker ss) <> length (objects w) ->
      sessions w' !! s = Some ss.
Proof.
  intros Hreach. apply reachable_state in Hreach as (_ & [Hinst Hptr] & _).
  split; [done|]. intros msg w' Hrun s ss Hss Hold.
  apply notify_Done in Hrun
    as [->|(a & fp & s0 & ss0 & Hi & Hfp & Hs0 & Hss0 & _ & ->)]; [done|].
  simpl. rewrite Hi in Hinst.
  destruct (decide (s0 = s)) as [->|Hne]; [|by rewrite list_lookup_insert_ne].
  destruct (Hptr _ _ _ Hfp Hs0) as (ss1 & Hss1 & Hown).
  exfalso. apply Hold. congruence.
Qed.

Lemma notify_serves_latest_instance_witness :
  match sInstance (world_two_instances env_goodix) with
  | Some a => S a = length (objects (world_two_instances env_goodix))
  | None => objects (world_two_instances env_goodix) = []
  end /\
  notify sample_msg (world_two_instances env_goodix) =
    Done tt (world_two_instances env_goodix) /\
  sessions (world_two_instances env_goodix) !! 0 =
    Some (created_session 0
            (with_udfps (Some sample_factory) (Some {| handler_addr := 8200 |})
               (loaded (Some dev_goodix) UNDER_DISPLAY_OPTICAL
                  member_initializers))
            10 (sample_cb 100)).
Proof.
  assert (Hrun : notify sample_msg (world_two_instances env_goodix) =
                 Done tt (world_two_instances env_goodix))
    by (vm_compute; reflexivity).
  destruct (notify_serves_latest_instance env_goodix
              (world_two_instances env_goodix) reachable_two_instances_goodix)
    as [Hlast Hold].
  split; [exact Hlast|]. split; [exact Hrun|].
  apply (Hold sample_msg (world_two_instances env_goodix) Hrun 0);
    [vm_compute; reflexivity | vm_compute; discriminate].
Defined.

(** ** The destructor *)

(** The body of the destructor on an object whose handler, when it has one,
    comes with a factory. *)
Lemma Fingerprint_dtor_run (this : nat) (fp : Fingerprint) (w : World) :
  objects w !! this = Some fp ->
  (mUdfpsHandler fp <> None -> mUdfpsHandlerFactory fp <> None) ->
  Fingerprint_dtor this w =
    Done tt
      (with_object this
         (loaded match mDevice fp with
                 | Some d => if (0 =? close d)%Z then None else Some d
                 | None => None
                 end (mSensorType fp) fp)
         (after_calls (dtor_calls fp) w)).
Proof.
  intros Hfp Hfactory.
  assert (Hdestroy :
    match mUdfpsHandler fp with
    | Some handler =>
        match mUdfpsHandlerFactory fp with
        | Some factory =>
            emit (ev_destroy (factory_addr factory) (handler_addr handler))
        | None => fault
        end
    | None => ret tt
    end w =
    Done tt (after_calls
               match mUdfpsHandler fp, mUdfpsHandlerFactory fp with
               | Some handler, Some factory =>
                   [ev_destroy (factory_addr factory) (handler_addr handler)]
               | _, _ => []
               end w)).
  { destruct (mUdfpsHandler fp) as [handler|];
      [|by rewrite after_calls_nil].
    destruct (mUdfpsHandlerFactory fp) as [factory|]; [done|].
    by destruct Hfactory. }
  unfold Fingerprint_dtor, dtor_calls. unfold bind at 1. unfold deref at 1.
  rewrite Hfp. unfold bind at 1. rewrite Hdestroy.
  unfold bind at 1. unfold deref at 1. cbn [objects after_calls]. rewrite Hfp.
  rewrite <- after_calls_app.
  set (w1 := after_calls _ w).
  assert (Hfp1 : objects w1 !! this = Some fp) by done.
  destruct (mDevice fp) as [d|] eqn:Hd.
  - unfold bind at 1. rewrite emit_after_calls.
    destruct (0 =? close d)%Z; cbn [negb].
    + unfold set_mDevice. by rewrite (modify_run _ _ fp).
    + unfold ret. rewrite <- Hd, loaded_id. by rewrite with_object_id.
  - unfold ret. rewrite after_calls_nil.
    rewrite <- Hd, loaded_id. by rewrite with_object_id.
Qed.

(** X10: in every world of a run, the destructor completes on every object.
    It calls [destroy] of the factory on the handler when the object has a
    handler, then [close] on the device when the object has a device, and
    nothing else.  The device pointer becomes null when [close] answers 0
    and is kept when [close] answers an error.  The other members, the
    sessions and the static pointer are as they were: the static pointer is
    not reset. *)
Theorem dtor_releases (env : Env) (w : World) (this : nat) (fp : Fingerprint) :
  reachable env w ->
  objects w !! this = Some fp ->
  exists w',
    Fingerprint_dtor this w = Done tt w' /\
    trace w' = dtor_calls fp ++ trace w /\
    sInstance w' = sInstance w /\
    sessions w' = sessions w /\
    objects w' =
      <[this := loaded match mDevice fp with
                       | Some d => if (0 =? close d)%Z then None else Some d
                       | None => None
                       end (mSensorType fp) fp]> (objects w).
Proof.
  intros Hreach Hfp. apply reachable_state in Hreach as (Hwc & _ & _).
  assert (Hfactory : mUdfpsHandler fp <> None -> mUdfpsHandlerFactory fp <> None).
  { specialize (Hwc _ _ Hfp). unfold well_constructed, udfps_handler in Hwc.
    destruct (mDevice fp) as [d|].
    - destruct Hwc as (_ & -> & -> & _).
      by destruct (getUdfpsHandlerFactory env).
    - by destruct Hwc as (_ & _ & -> & _). }
  eexists. split; [by apply Fingerprint_dtor_run|done].
Qed.

Lemma dtor_releases_witness :
  (exists w',
      Fingerprint_dtor 0 (world_session_open env_goodix) = Done tt w' /\
      trace w' = [ev_close 4096 0; ev_destroy 8192 8200] ++
                 trace (world_session_open env_goodix) /\
      sInstance w' = Some 0 /\
      sessions w' = sessions (world_session_open env_goodix) /\
      (mDevice <$> objects w' !! 0) = Some None) /\
  (exists w',
      Fingerprint_dtor 0 (world_constructed env_busy) = Done tt w' /\
      trace w' = [ev_close 5120 (-16); ev_destroy 8192 8200] ++
                 trace (world_constructed env_busy) /\
      (mDevice <$> objects w' !! 0) = Some (Some dev_busy)).
Proof.
  split.
  - destruct (dtor_releases env_goodix (world_session_open env_goodix) 0
                (with_mSession (Some 0)
                   (with_udfps (Some sample_factory)
                      (Some {| handler_addr := 8200 |})
                      (loaded (Some dev_goodix) UNDER_DISPLAY_OPTICAL
                         member_initializers))))
      as (w' & Hrun & Htr & Hi & Hs & Ho);
      [apply reachable_session_open_goodix | vm_compute; reflexivity|].
    exists w'. split; [exact Hrun|]. split; [exact Htr|].
    split; [exact Hi|]. split; [exact Hs|]. rewrite Ho. reflexivity.
  - destruct (dtor_releases env_busy (world_constructed env_busy) 0
                (with_udfps (Some sample_factory)
                   (Some {| handler_addr := 8200 |})
                   (loaded (Some dev_busy) UNDER_DISPLAY_OPTICAL
                      member_initializers)))
      as (w' & Hrun & Htr & _ & _ & Ho);
      [apply reachable_constructed; vm_compute; reflexivity
      | vm_compute; reflexivity|].
    exists w'. split; [exact Hrun|]. split; [exact Htr|].
    rewrite Ho. reflexivity.
Defined.

(** ** The callback and the sessions *)

(** The message is dropped when the session of the recorded instance is
    closed. *)
Lemma notify_drops_closed (msg : fingerprint_msg_t) (w : World) (a s : nat)
    (fp : Fingerprint) (ss : Session) :
  sInstance w = Some a ->
  objects w !! a = Some fp ->
  mSession fp = Some s ->
  sessions w !! s = Some ss ->
  sess_closed ss = true ->
  notify msg w = Done tt w.
Proof.
  intros Hi Hfp Hs Hss Hcl.
  unfold notify, Session_isClosed, get_sInstance, deref, deref_session,
    bind, ret.
  rewrite Hi, Hfp, Hs; cbv beta iota. by rewrite Hss, Hcl.
Qed.



(** X12: [createSession] and the callback compose.  On the instance that
    the static pointer refers to, a message that arrives after a completed
    [createSession] is received by the session just created; a message that
    arrives after that session has been closed is dropped. *)
Theorem createSession_then_notify (this : nat) (sensorId userId : Z)
    (cb : ISessionCallback) (msg : fingerprint_msg_t) (fp : Fingerprint)
    (w : World) :
  sInstance w = Some this ->
  objects w !! this = Some fp ->
  null_or_closed w fp ->
  (_ <- createSession this sensorId userId cb ;; notify msg) w =
    Done tt
      (with_session (length (sessions w))
         (notified msg (created_session this fp userId cb))
         (after_createSession this fp userId cb w)) /\
  (_ <- createSession this sensorId userId cb ;;
   Session_close (length (sessions w)) ;;; notify msg) w =
    Done tt
      (with_session (length (sessions w))
         (closed (created_session this fp userId cb))
         (after_createSession this fp userId cb w)).
Proof.
  intros Hi Hfp Hcheck.
  assert (Hobj : objects (after_createSession this fp userId cb w) !! this =
                 Some (with_mSession (Some (length (sessions w))) fp)).
  { simpl. apply list_lookup_insert_eq. by eapply lookup_lt_Some. }
  assert (Hnew : sessions (after_createSession this fp userId cb w)
                   !! length (sessions w) =
                 Some (created_session this fp userId cb))
    by apply lookup_fresh.
  split.
  - erewrite bind_run by (by apply createSession_run).
    by apply (notify_forwards _ _ this _
                (with_mSession (Some (length (sessions w))) fp)).
  - erewrite bind_run by (by apply createSession_run).
    assert (Hclose : Session_close (length (sessions w))
                       (after_createSession this fp userId cb w) =
                     Done tt (with_session (length (sessions w))
                                (closed (created_session this fp userId cb))
                                (after_createSession this fp userId cb w))).
    { unfold Session_close, bind, deref_session, store_session.
      by rewrite !Hnew. }
    erewrite bind_run by apply Hclose.
    apply (notify_drops_closed _ _ this (length (sessions w))
             (with_mSession (Some (length (sessions w))) fp)
             (closed (created_session this fp userId cb)));
      try done.
    simpl. apply list_lookup_insert_eq. by eapply lookup_lt_Some.
Qed.

Lemma createSession_then_notify_witness :
  (_ <- createSession 0 0 10 (sample_cb 100) ;; notify sample_msg)
    (world_constructed env_goodix) =
    Done tt
      (with_session 0
         (notified sample_msg
            (created_session 0
               (with_udfps (Some sample_factory)
                  (Some {| handler_addr := 8200 |})
                  (loaded (Some dev_goodix) UNDER_DISPLAY_OPTICAL
                     member_initializers))
               10 (sample_cb 100)))
         (world_session_open env_goodix)).
Proof.
  apply (proj1 (createSession_then_notify 0 0 10 (sample_cb 100) sample_msg
                  (with_udfps (Some sample_factory)
                     (Some {| handler_addr := 8200 |})
                     (loaded (Some dev_goodix) UNDER_DISPLAY_OPTICAL
                        member_initializers))
                  (world_constructed env_goodix)
                  ltac:(vm_compute; reflexivity)
                  ltac:(vm_compute; reflexivity)
                  ltac:(left; reflexivity))).
Defined.



(** ** What getSensorProps reports *)

Lemma property_get_int32_range (env : Env) (key : string) :
  (- 2 ^ 31 <= property_get_int32 env key (-1) <= 2 ^ 31 - 1)%Z.
Proof.
  unfold property_get_int32. destruct (properties env !! key) as [v|]; [|lia].
  destruct ((- 2 ^ 31 <=? v) && (v <=? 2 ^ 31 - 1))%Z eqn:Hin; [|lia].
  apply andb_prop in Hin as [Hge Hle]. apply Z.leb_le in Hge, Hle. lia.
Qed.

(** X14: [getSensorProps] writes exactly one sensor location, and none of
    its coordinates and radius is negative or exceeds the largest [int32_t],
    whatever the properties are. *)
Theorem getSensorProps_location_bounds (env : Env) (w : World) (this : nat)
    (fp : Fingerprint) :
  objects w !! this = Some fp ->
  exists p l,
    getSensorProps env this w = Done (ok, [p]) w /\
    sensorLocations p = [l] /\
    (0 <= sensorLocationX l <= 2 ^ 31 - 1)%Z /\
    (0 <= sensorLocationY l <= 2 ^ 31 - 1)%Z /\
    (0 <= sensorRadius l <= 2 ^ 31 - 1)%Z.
Proof.
  intros Hfp. unfold getSensorProps, bind, deref, ret. rewrite Hfp.
  eexists _, _. split; [reflexivity|]. cbn [sensorLocations].
  split; [reflexivity|].
  pose proof (property_get_int32_range env
    "ro.vendor.feature.fingerprint_sensorui_position_center_x") as Hx.
  pose proof (property_get_int32_range env
    "ro.vendor.feature.fingerprint_sensorui_position_center_y") as Hy.
  pose proof (property_get_int32_range env
    "ro.vendor.feature.fingerprint_sensorui_position_center_r") as Hr.
  destruct ((0 <=? _) && (0 <=? _) && (0 <=? _))%Z eqn:Hall;
    [|simpl; lia].
  apply andb_prop in Hall as [Hall H3]. apply andb_prop in Hall as [H1 H2].
  apply Z.leb_le in H1, H2, H3. simpl. lia.
Qed.

Lemma getSensorProps_location_bounds_witness :
  exists p l,
    getSensorProps env_goodix 0 (world_constructed env_goodix) =
      Done (ok, [p]) (world_constructed env_goodix) /\
    sensorLocations p = [l] /\
    (0 <= sensorLocationX l <= 2 ^ 31 - 1)%Z /\
    (0 <= sensorLocationY l <= 2 ^ 31 - 1)%Z /\
    (0 <= sensorRadius l <= 2 ^ 31 - 1)%Z.
Proof.
  apply (getSensorProps_location_bounds env_goodix
           (world_constructed env_goodix) 0
           (with_udfps (Some sample_factory) (Some {| handler_addr := 8200 |})
              (loaded (Some dev_goodix) UNDER_DISPLAY_OPTICAL
                 member_initializers))).
  vm_compute. reflexivity.
Defined.

(** X15: in every world of a run, the sensor type that [getSensorProps]
    reports tells whether a module opened: it is UNKNOWN when the object
    holds no device and UNDER_DISPLAY_OPTICAL when it holds one. *)
Theorem getSensorProps_sensor_type (env : Env) (w : World) (this : nat)
    (fp : Fingerprint) :
  reachable env w ->
  objects w !! this = Some fp ->
  exists p,
    getSensorProps env this w = Done (ok, [p]) w /\
    (mDevice fp = None -> sensorType p = UNKNOWN) /\
    (forall d, mDevice fp = Some d -> sensorType p = UNDER_DISPLAY_OPTICAL).
Proof.
  intros Hreach Hfp. apply reachable_state in Hreach as (Hwc & _ & _).
  specialize (Hwc _ _ Hfp). unfold well_constructed in Hwc.
  unfold getSensorProps, bind, deref, ret. rewrite Hfp.
  eexists. split; [reflexivity|]. cbn [sensorType].
  split.
  - intros Hd. rewrite Hd in Hwc. by destruct Hwc.
  - intros d Hd. rewrite Hd in Hwc. by destruct Hwc.
Qed.

Lemma getSensorProps_sensor_type_witness :
  (exists p,
      getSensorProps env_old 0 (world_constructed env_old) =
        Done (ok, [p]) (world_constructed env_old) /\
      sensorType p = UNKNOWN) /\
  (exists p,
      getSensorProps env_generic 0 (world_constructed env_generic) =
        Done (ok, [p]) (world_constructed env_generic) /\
      sensorType p = UNDER_DISPLAY_OPTICAL).
Proof.
  split.
  - destruct (getSensorProps_sensor_type env_old (world_constructed env_old) 0
                (with_udfps None None member_initializers)
                reachable_constructed_old)
      as (p & Hrun & Hnone & _); [vm_compute; reflexivity|].
    exists p. split; [exact Hrun|]. apply Hnone. reflexivity.
  - destruct (getSensorProps_sensor_type env_generic
                (world_constructed env_generic) 0
                (with_udfps None None
                   (loaded (Some dev_generic) UNDER_DISPLAY_OPTICAL
                      member_initializers))
                reachable_constructed_generic)
      as (p & Hrun & _ & Hsome); [vm_compute; reflexivity|].
    exists p. split; [exact Hrun|]. apply (Hsome dev_generic). reflexivity.
Defined.

(** ** What the sessions of a run are bound to *)

(** X16: in every world of a run, every session is linked exactly once, to
    the death of the binder of its own callback, and is bound to the device
    and the UDFPS handler that the object it was made for holds; when it is
    bound to a device, that device has version [kVersion] and has accepted
    the callback. *)
Theorem sessions_of_runs_bound (env : Env) (w : World) (s : nat)
    (ss : Session) :
  reachable env w ->
  sessions w !! s = Some ss ->
  sess_linkedToDeath ss = [asBinder (sess_cb ss)] /\
  (exists fp,
      objects w !! sess_lockoutTracker ss = Some fp /\
      sess_device ss = mDevice fp /\
      sess_udfpsHandler ss = mUdfpsHandler fp) /\
  (forall d, sess_device ss = Some d ->
             version d = kVersion /\ set_notify d Fingerprint_notify = 0%Z).
Proof.
  intros Hreach Hss. apply reachable_state in Hreach as (Hwc & _ & Hbound).
  destruct (Hbound _ _ Hss) as (Hlink & fp & Hfp & Hdev & Hh).
  split; [done|]. split; [by exists fp|].
  intros d Hd. eapply well_constructed_device; [by eapply Hwc|congruence].
Qed.

Lemma sessions_of_runs_bound_witness :
  sess_linkedToDeath (closed (created_session 0
                                (with_udfps (Some sample_factory)
                                   (Some {| handler_addr := 8200 |})
                                   (loaded (Some dev_goodix)
                                      UNDER_DISPLAY_OPTICAL
                                      member_initializers))
                                10 (sample_cb 100))) = [101%Z] /\
  version dev_goodix = kVersion /\
  set_notify dev_goodix Fingerprint_notify = 0%Z.
Proof.
  destruct (sessions_of_runs_bound env_goodix (world_session_closed env_goodix)
              0 (closed (created_session 0
                           (with_udfps (Some sample_factory)
                              (Some {| handler_addr := 8200 |})
                              (loaded (Some dev_goodix) UNDER_DISPLAY_OPTICAL
                                 member_initializers))
                           10 (sample_cb 100)))
              reachable_session_closed_goodix)
    as (Hlink & _ & Hdev); [vm_compute; reflexivity|].
  split; [exact Hlink|]. apply (Hdev dev_goodix). reflexivity.
Defined.
